(** * Doppelganger engine: census extraction, prompt metrics and the
      read-through cache of [/find-twin]

    A shallow embedding of [main.py].  The three collaborators of the
    service (statistics API, generative model, document store) are outside
    the program; what they answer on one request is an input of the model.
    Python values that travel through the code untyped are kept as JSON
    values and every Python primitive the code applies to them is a function
    that returns either a value or the exception class Python raises. *)

From Stdlib Require Import ZArith String Ascii List Bool Lia DecimalString.
From Stdlib Require DecimalPos Permutation.
From stdpp Require Import gmap strings.

Local Open Scope string_scope.
Local Open Scope Z_scope.
Set Warnings "-register-all".

(** ** Exceptions and the result of a Python expression *)

(** The exception classes that the modelled expressions can raise.
    [RequestException] stands for the whole [requests.exceptions] family and
    [OtherException] for the classes that the collaborators' client
    libraries raise. *)
Inductive exn : Type :=
| ValueError
| IndexError
| TypeError
| KeyError
| AttributeError
| OverflowError
| ZeroDivisionError
| RequestException
| OtherException.

Inductive result (A : Type) : Type :=
| Ok (a : A)
| Raise (e : exn).

Arguments Ok {A} a.
Arguments Raise {A} e.

Definition bind {A B : Type} (r : result A) (k : A -> result B) : result B :=
  match r with
  | Ok a => k a
  | Raise e => Raise e
  end.

Notation "'let*' x ':=' e 'in' k" := (bind e (fun x => k))
  (at level 10, x name, e at level 100, k at level 200, only parsing).

(** [mapM f l] evaluates [f] on the elements of [l] from left to right, as
    a list comprehension does, and stops at the first exception. *)
Fixpoint mapM {A B : Type} (f : A -> result B) (l : list A) : result (list B) :=
  match l with
  | [] => Ok []
  | x :: xs => let* y := f x in let* ys := mapM f xs in Ok (y :: ys)
  end.

(** ** JSON values *)

(** A binary64 number as the JSON decoder delivers it: a dyadic rational
    [m * 2^e], an infinity or a NaN.  No arithmetic is done on these. *)
Inductive binary64 : Type :=
| B64Finite (m e : Z)
| B64Inf (negative : bool)
| B64NaN.

(** What [response.json()] and [json.loads] return.  A string is a sequence
    of characters, one [ascii] per character (code points 0..255). *)
Inductive json : Type :=
| JNull
| JBool (b : bool)
| JInt (z : Z)
| JFloat (f : binary64)
| JStr (s : string)
| JList (l : list json)
| JDict (d : list (string * json)).

(** A Python float that the program itself computes is kept as the
    expression that produces it; the program never compares or branches on
    one. *)
Inductive pyfloat : Type :=
| FConst (b : binary64)          (* a float read from JSON *)
| FOfInt (z : Z)                 (* float(z) *)
| FOfStr (s : string)            (* float(s), s a float literal *)
| FQuot (a b : Z)                (* a / b on ints, b <> 0 *)
| FTimes (x : pyfloat) (k : Z).  (* x * k *)

(** ** Characters and numeric literals *)

Definition code (c : ascii) : Z := Z.of_N (N_of_ascii c).

Definition is_digit (c : ascii) : bool := (48 <=? code c) && (code c <=? 57).

Definition digit_value (c : ascii) : Z := code c - 48.

(** White space as [int()] and [float()] strip it: TAB, LF, VT, FF, CR and
    the space, and among the characters above 127 NEL and NBSP. *)
Definition is_space (c : ascii) : bool :=
  ((9 <=? code c) && (code c <=? 13)) || (code c =? 32)
  || (code c =? 133) || (code c =? 160).

Definition is_underscore (c : ascii) : bool := code c =? 95.

Fixpoint drop_spaces (l : list ascii) : list ascii :=
  match l with
  | c :: r => if is_space c then drop_spaces r else l
  | [] => []
  end.

Definition strip (l : list ascii) : list ascii :=
  rev (drop_spaces (rev (drop_spaces l))).

(** Decimal digits with single underscores between them. *)
Fixpoint digits_value (acc : Z) (after_digit : bool) (l : list ascii) : option Z :=
  match l with
  | [] => if after_digit then Some acc else None
  | c :: r =>
      if is_digit c then digits_value (10 * acc + digit_value c) true r
      else if is_underscore c && after_digit then digits_value acc false r
      else None
  end.

Definition signed_digits (l : list ascii) : option Z :=
  match l with
  | c :: r =>
      if code c =? 45 then option_map Z.opp (digits_value 0 false r)
      else if code c =? 43 then digits_value 0 false r
      else digits_value 0 false l
  | [] => None
  end.

(** [int(s)] for a string [s] in base 10; [None] is [ValueError].  The
    interpreter's configurable limit on the number of digits is not part of
    the model. *)
Definition int_of_string (s : string) : option Z :=
  signed_digits (strip (list_ascii_of_string s)).

(** [float(s)] accepts, after stripping white space, a signed decimal
    number with an optional fraction and exponent, or [inf], [infinity] or
    [nan] in any letter case.  Underscores may stand between two digits. *)
Fixpoint underscores_ok (prev : option ascii) (l : list ascii) : bool :=
  match l with
  | [] => match prev with Some p => negb (is_underscore p) | None => true end
  | c :: r =>
      (if is_underscore c
       then match prev with Some p => is_digit p | None => false end
       else match prev with
            | Some p => negb (is_underscore p) || is_digit c
            | None => true
            end)
      && underscores_ok (Some c) r
  end.

Fixpoint span_digits (l : list ascii) : nat * list ascii :=
  match l with
  | c :: r => if is_digit c then let (n, t) := span_digits r in (S n, t) else (O, l)
  | [] => (O, [])
  end.

Definition lower (c : ascii) : Z :=
  if (65 <=? code c) && (code c <=? 90) then code c + 32 else code c.

Definition is_word (w : string) (l : list ascii) : bool :=
  bool_decide (map lower l = map code (list_ascii_of_string w)).

Definition drop_sign (l : list ascii) : list ascii :=
  match l with
  | c :: r => if (code c =? 45) || (code c =? 43) then r else l
  | [] => []
  end.

Definition exponent_ok (l : list ascii) : bool :=
  match l with
  | [] => true
  | c :: r =>
      (lower c =? 101) &&
      (let (n, t) := span_digits (drop_sign r) in
       negb (Nat.eqb n 0) && bool_decide (t = []))
  end.

Definition unsigned_float (l : list ascii) : bool :=
  if is_word "inf" l || is_word "infinity" l || is_word "nan" l then true
  else
    let (n1, r1) := span_digits l in
    let (n2, r2) := match r1 with
                    | c :: r => if code c =? 46 then span_digits r else (O, r1)
                    | [] => (O, r1)
                    end in
    negb (Nat.eqb (n1 + n2) 0) && exponent_ok r2.

Definition is_float_literal (s : string) : bool :=
  let l := strip (list_ascii_of_string s) in
  underscores_ok None l
  && unsigned_float (drop_sign (filter (fun c => negb (is_underscore c)) l)).

(** ** The Python primitives applied to JSON values *)

(** Truth value of an object in [not x], [x or y] and [if x]. *)
Definition py_truthy (v : json) : bool :=
  match v with
  | JNull => false
  | JBool b => b
  | JInt z => negb (z =? 0)
  | JFloat (B64Finite m _) => negb (m =? 0)
  | JFloat _ => true
  | JStr s => negb (String.eqb s EmptyString)
  | JList l => negb (bool_decide (l = []))
  | JDict d => negb (bool_decide (d = []))
  end.

Definition py_or (a b : json) : json := if py_truthy a then a else b.

(** [len(v)]. *)
Definition py_len (v : json) : result Z :=
  match v with
  | JStr s => Ok (Z.of_nat (String.length s))
  | JList l => Ok (Z.of_nat (List.length l))
  | JDict d => Ok (Z.of_nat (List.length d))
  | _ => Raise TypeError
  end.

(** [v[i]] for an index [i >= 0].  A JSON object has string keys only, so
    an integer subscript is a missing key. *)
Definition py_getitem (v : json) (i : nat) : result json :=
  match v with
  | JList l => match l !! i with Some x => Ok x | None => Raise IndexError end
  | JStr s => match String.get i s with
              | Some c => Ok (JStr (String c EmptyString))
              | None => Raise IndexError
              end
  | JDict _ => Raise KeyError
  | _ => Raise TypeError
  end.

(** [x == field_name] for a string [field_name]: only an equal string. *)
Definition py_eq_str (x : json) (field_name : string) : bool :=
  match x with
  | JStr s => String.eqb s field_name
  | _ => false
  end.

Fixpoint list_index (field_name : string) (l : list json) (i : nat) : option nat :=
  match l with
  | [] => None
  | x :: r => if py_eq_str x field_name then Some i else list_index field_name r (S i)
  end.

Fixpoint is_prefix (p l : list ascii) : bool :=
  match p, l with
  | [], _ => true
  | _ :: _, [] => false
  | a :: p', b :: l' => bool_decide (a = b) && is_prefix p' l'
  end.

Fixpoint find_sub (p l : list ascii) (i : nat) : option nat :=
  match l with
  | [] => if is_prefix p [] then Some i else None
  | _ :: r => if is_prefix p l then Some i else find_sub p r (S i)
  end.

(** [v.index(field_name)]: the position of the first equal element of a
    list, or of the first occurrence of the substring in a string;
    [ValueError] when there is none.  The other JSON values have no
    [index] attribute. *)
Definition py_index (v : json) (field_name : string) : result nat :=
  match v with
  | JList l => match list_index field_name l O with
               | Some i => Ok i
               | None => Raise ValueError
               end
  | JStr s => match find_sub (list_ascii_of_string field_name)
                             (list_ascii_of_string s) O with
              | Some i => Ok i
              | None => Raise ValueError
              end
  | _ => Raise AttributeError
  end.

(** Truncation of a finite binary64 towards zero. *)
Definition b64_trunc (m e : Z) : Z :=
  if 0 <=? e then m * 2 ^ e else Z.quot m (2 ^ (- e)).

(** [int(v)]. *)
Definition py_int (v : json) : result Z :=
  match v with
  | JStr s => match int_of_string s with Some z => Ok z | None => Raise ValueError end
  | JInt z => Ok z
  | JBool b => Ok (if b then 1 else 0)
  | JFloat (B64Finite m e) => Ok (b64_trunc m e)
  | JFloat (B64Inf _) => Raise OverflowError
  | JFloat B64NaN => Raise ValueError
  | JNull | JList _ | JDict _ => Raise TypeError
  end.

(** An int converts to a float unless it rounds beyond the largest finite
    binary64, [2^1024 - 2^971]; half-way to [2^1024] already overflows. *)
Definition float_limit : Z := 2 ^ 1024 - 2 ^ 970.

Definition int_too_large (z : Z) : bool := float_limit <=? Z.abs z.

(** [float(v)]. *)
Definition py_float (v : json) : result pyfloat :=
  match v with
  | JStr s => if is_float_literal s then Ok (FOfStr s) else Raise ValueError
  | JInt z => if int_too_large z then Raise OverflowError else Ok (FOfInt z)
  | JBool b => Ok (FOfInt (if b then 1 else 0))
  | JFloat f => Ok (FConst f)
  | JNull | JList _ | JDict _ => Raise TypeError
  end.

(** [a / b] on two ints. *)
Definition py_truediv (a b : Z) : result pyfloat :=
  if b =? 0 then Raise ZeroDivisionError
  else if float_limit * Z.abs b <=? Z.abs a then Raise OverflowError
  else Ok (FQuot a b).

(** [try: body  except (ValueError, IndexError, TypeError): return default]:
    the three listed classes are handled, every other exception goes on to
    the caller. *)
Definition handled (e : exn) : bool :=
  match e with
  | ValueError | IndexError | TypeError => true
  | _ => false
  end.

Definition try_except {A : Type} (body : result A) (default : A) : result A :=
  match body with
  | Ok a => Ok a
  | Raise e => if handled e then Ok default else Raise e
  end.

(** ** The demographic record extractor: [fetch_census_demographics] *)

(** The dictionary that [fetch_census_demographics] builds.  The counts are
    Python ints, hence unbounded.  [name] and [zipCode] carry whatever JSON
    value stood in the data row. *)
Record demographics : Type := {
  name : json;
  population : Z;
  medianIncome : Z;
  medianAge : pyfloat;
  raceWhite : Z;
  raceBlack : Z;
  raceNative : Z;
  raceAsian : Z;
  educationPopulation : Z;
  educationBachelors : Z;
  educationGraduate : Z;
  medianHomeValue : Z;
  medianRent : Z;
  housingUnits : Z;
  ownerOccupied : Z;
  renterOccupied : Z;
  ageUnder18 : Z;
  age18to64 : Z;
  age65plus : Z;
  commuteTotal : Z;
  commuteDrive : Z;
  commutePublic : Z;
  commuteWfh : Z;
  zipCode : json
}.

(** What the statistics API does on one request: [requests.get] fails,
    [raise_for_status] finds an error status, the body is not JSON, or the
    body decodes to [data]. *)
Inductive upstream : Type :=
| ConnectionFailed
| HttpErrorStatus
| BodyNotJson
| Payload (data : json).

Definition receive (up : upstream) : result json :=
  match up with
  | Payload data => Ok data
  | ConnectionFailed | HttpErrorStatus | BodyNotJson => Raise RequestException
  end.

(** [not data or len(data) < 2]. *)
Definition too_short (data : json) : result bool :=
  if negb (py_truthy data) then Ok true
  else let* n := py_len data in Ok (n <? 2).

Section Row.

(** [headers = data[0]] and [values = data[1]], shared by the two nested
    helpers. *)
Variables headers values : json.

Definition get_value (field_name : string) : result Z :=
  try_except
    (let* index := py_index headers field_name in
     let* v := py_getitem values index in
     py_int v)
    0.

Definition get_string_value (field_name : string) : result json :=
  try_except
    (let* index := py_index headers field_name in
     py_getitem values index)
    (JStr EmptyString).

End Row.

Definition age_65_keys : list string :=
  [ "B01001_020E"; "B01001_021E"; "B01001_022E"; "B01001_023E"; "B01001_024E";
    "B01001_025E"; "B01001_044E"; "B01001_045E"; "B01001_046E"; "B01001_047E";
    "B01001_048E"; "B01001_049E" ].

(** Python's [sum]: start from 0 and add from left to right. *)
Definition sum (l : list Z) : Z := fold_left Z.add l 0.

(** The statements after the length test, in the order Python evaluates
    them. *)
Definition extract (data : json) (zip_code : string) : result demographics :=
  let* headers := py_getitem data 0 in
  let* values := py_getitem data 1 in
  let get_value := get_value headers values in
  let get_string_value := get_string_value headers values in
  let* total_population := get_value "B01003_001E" in
  let* age_under_18 := get_value "B09001_001E" in
  let* brackets := mapM get_value age_65_keys in
  let age_65_plus := sum brackets in
  let age_18_to_64 := total_population - age_under_18 - age_65_plus in
  let* masters := get_value "B15003_023E" in
  let* professional := get_value "B15003_024E" in
  let* doctorate := get_value "B15003_025E" in
  let education_graduate := masters + professional + doctorate in
  let* v_name := get_string_value "NAME" in
  let* v_medianIncome := get_value "B19013_001E" in
  let* raw_age := get_string_value "B01002_001E" in
  let* v_medianAge := py_float (py_or raw_age (JInt 0)) in
  let* v_raceWhite := get_value "B02001_002E" in
  let* v_raceBlack := get_value "B02001_003E" in
  let* v_raceNative := get_value "B02001_004E" in
  let* v_raceAsian := get_value "B02001_005E" in
  let* v_educationPopulation := get_value "B15003_001E" in
  let* v_educationBachelors := get_value "B15003_022E" in
  let* v_medianHomeValue := get_value "B25077_001E" in
  let* v_medianRent := get_value "B25064_001E" in
  let* v_housingUnits := get_value "B25002_001E" in
  let* v_ownerOccupied := get_value "B25002_002E" in
  let* v_renterOccupied := get_value "B25002_003E" in
  let* v_commuteTotal := get_value "B08301_001E" in
  let* v_commuteDrive := get_value "B08301_002E" in
  let* v_commutePublic := get_value "B08301_010E" in
  let* v_commuteWfh := get_value "B08301_021E" in
  let* raw_zip := get_string_value "zip code tabulation area" in
  Ok {| name := v_name;
        population := total_population;
        medianIncome := v_medianIncome;
        medianAge := v_medianAge;
        raceWhite := v_raceWhite;
        raceBlack := v_raceBlack;
        raceNative := v_raceNative;
        raceAsian := v_raceAsian;
        educationPopulation := v_educationPopulation;
        educationBachelors := v_educationBachelors;
        educationGraduate := education_graduate;
        medianHomeValue := v_medianHomeValue;
        medianRent := v_medianRent;
        housingUnits := v_housingUnits;
        ownerOccupied := v_ownerOccupied;
        renterOccupied := v_renterOccupied;
        ageUnder18 := age_under_18;
        age18to64 := age_18_to_64;
        age65plus := age_65_plus;
        commuteTotal := v_commuteTotal;
        commuteDrive := v_commuteDrive;
        commutePublic := v_commutePublic;
        commuteWfh := v_commuteWfh;
        zipCode := py_or raw_zip (JStr zip_code) |}.

(** The body of the [try] block: [None] is the explicit [return None] for a
    payload that is too short. *)
Definition fetch_try (up : upstream) (zip_code : string)
  : result (option demographics) :=
  let* data := receive up in
  let* short := too_short data in
  if short then Ok None
  else let* d := extract data zip_code in Ok (Some d).

(** Both [except] clauses log and return [None]. *)
Definition fetch_census_demographics (up : upstream) (zip_code : string)
  : option demographics :=
  match fetch_try up zip_code with
  | Ok r => r
  | Raise _ => None
  end.

(** ** Prompt metrics and the two generative calls *)

(** A derived percentage is the int [0] or a float. *)
Inductive pynum : Type :=
| NInt (z : Z)
| NFloat (f : pyfloat).

(** [numerator / denominator * 100 if denominator > 0 else 0]. *)
Definition percent (numerator denominator : Z) : result pynum :=
  if 0 <? denominator
  then let* q := py_truediv numerator denominator in Ok (NFloat (FTimes q 100))
  else Ok (NInt 0).

(** The value that fills one replacement field of a prompt, with the way it
    is formatted.  The text between the fields is constant. *)
Inductive piece : Type :=
| Verbatim (v : json)         (* {v} *)
| Grouped (z : Z)             (* format_number: {z:,} *)
| Currency (z : Z)            (* format_currency: ${z:,.0f} *)
| Percent (v : pynum)         (* format_percent: {v:.1f}% *)
| OneDecimal (f : pyfloat).   (* {f:.1f} *)

Definition prompt : Type := list piece.

(** The [f] presentation type converts an int to a float first. *)
Definition format_currency (value : Z) : result piece :=
  if int_too_large value then Raise OverflowError else Ok (Currency value).

Definition format_number (value : Z) : piece := Grouped value.

Definition format_percent (value : pynum) : piece := Percent value.

(** What the hosted model does on one call: [generate_content] (or reading
    [response.text]) raises, the text is not JSON, or the text decodes to
    [v]. *)
Inductive model_outcome : Type :=
| ModelRaises
| ReplyNotJson
| Reply (v : json).

(** [json.loads(model.generate_content(...).text)]. *)
Definition model_reply (o : model_outcome) : result json :=
  match o with
  | ModelRaises => Raise OtherException
  | ReplyNotJson => Raise ValueError
  | Reply v => Ok v
  end.

Definition error_object (message : string) : json :=
  JDict [("error", JStr message)].

(** The derived percentages of [get_gemini_profile]. *)
Module GeminiProfile.

Definition higher_ed_percent (data : demographics) : result pynum :=
  percent (educationBachelors data + educationGraduate data)
          (educationPopulation data).

Definition owner_occupied_percent (data : demographics) : result pynum :=
  percent (ownerOccupied data) (housingUnits data).

Definition wfh_percent (data : demographics) : result pynum :=
  percent (commuteWfh data) (commuteTotal data).

Definition age_under_18_percent (data : demographics) : result pynum :=
  percent (ageUnder18 data) (population data).

Definition age_65_plus_percent (data : demographics) : result pynum :=
  percent (age65plus data) (population data).

End GeminiProfile.

(** The derived percentages of [find_doppelgangers], computed on their
    own. *)
Module Doppelgangers.

Definition higher_ed_percent (data : demographics) : result pynum :=
  percent (educationBachelors data + educationGraduate data)
          (educationPopulation data).

Definition owner_occupied_percent (data : demographics) : result pynum :=
  percent (ownerOccupied data) (housingUnits data).

End Doppelgangers.

(** The percentages and the prompt are computed before the [try] block, so
    an exception there leaves the function. *)
Definition profile_prompt (data : demographics) : result prompt :=
  let* higher_ed_percent := GeminiProfile.higher_ed_percent data in
  let* owner_occupied_percent := GeminiProfile.owner_occupied_percent data in
  let* wfh_percent := GeminiProfile.wfh_percent data in
  let* age_under_18_percent := GeminiProfile.age_under_18_percent data in
  let* age_65_plus_percent := GeminiProfile.age_65_plus_percent data in
  let* income := format_currency (medianIncome data) in
  let* home_value := format_currency (medianHomeValue data) in
  let* rent := format_currency (medianRent data) in
  Ok [ Verbatim (zipCode data);
       format_number (population data);
       OneDecimal (medianAge data);
       format_percent age_under_18_percent;
       format_percent age_65_plus_percent;
       income; home_value; rent;
       format_percent owner_occupied_percent;
       format_percent higher_ed_percent;
       format_percent wfh_percent;
       format_number (raceWhite data);
       format_number (raceBlack data);
       format_number (raceAsian data) ].

Definition get_gemini_profile (gemini : prompt -> model_outcome)
    (data : demographics) : result json :=
  let* p := profile_prompt data in
  match model_reply (gemini p) with
  | Ok v => Ok v
  | Raise _ => Ok (error_object "Failed to generate Gemini profile.")
  end.

Definition count : Z := 5.
Definition threshold_min : Z := 85.
Definition threshold_max : Z := 100.

Definition doppelganger_prompt (data : demographics) : result prompt :=
  let* higher_ed_percent := Doppelgangers.higher_ed_percent data in
  let* owner_occupied_percent := Doppelgangers.owner_occupied_percent data in
  let* income := format_currency (medianIncome data) in
  let* home_value := format_currency (medianHomeValue data) in
  Ok [ Verbatim (zipCode data);
       Verbatim (JInt count);
       income; home_value;
       format_number (population data);
       format_percent higher_ed_percent;
       format_percent owner_occupied_percent;
       OneDecimal (medianAge data);
       Verbatim (JInt threshold_min);
       Verbatim (JInt threshold_max);
       Verbatim (zipCode data) ].

Definition find_doppelgangers (gemini : prompt -> model_outcome)
    (data : demographics) : result json :=
  let* p := doppelganger_prompt data in
  match model_reply (gemini p) with
  | Ok v => Ok v
  | Raise _ => Ok (error_object "Failed to find doppelgangers.")
  end.

(** ** The endpoint: [handle_find_twin] *)

(** The combined payload [final_result], which is both the response and
    the cached document. *)
Record cache_entry : Type := {
  r_demographics : demographics;
  r_profile : json;
  r_doppelgangers : json
}.

(** The [zip_cache] collection: documents by ZIP code. *)
Abbreviation zip_cache := (gmap string cache_entry).

(** [jsonify] is a function of the value it serializes, so a response body
    is identified with that value. *)
Inductive body : Type :=
| EmptyBody
| ErrorBody (message : string)
| ResultBody (r : cache_entry).

Record response : Type := { status : Z; content : body }.

(** The [zip_code] member of the request body: a string or a whole
    number. *)
Inductive zip_field : Type :=
| ZipStr (s : string)
| ZipInt (z : Z).

Definition py_str (v : zip_field) : string :=
  match v with
  | ZipStr s => s
  | ZipInt z => NilZero.string_of_int (Z.to_int z)
  end.

(** What [request.get_json()] gives: it raises, it returns nothing (or an
    empty object), an object without the member, or an object with it. *)
Inductive request_body : Type :=
| BodyRejected
| BodyEmpty
| BodyWithoutZip
| BodyZip (v : zip_field).

Inductive request : Type :=
| Options
| Post (b : request_body).

(** What the collaborators do during one request. *)
Record world : Type := {
  cache_get_raises : bool;
  census : upstream;
  gemini_profile : prompt -> model_outcome;
  gemini_doppelgangers : prompt -> model_outcome;
  cache_set_raises : bool
}.

Definition not_found_message (zip_code : string) : string :=
  "No demographic data found for ZIP code " ++ zip_code ++ ".".

(** [if db:] followed by [cache_ref.get()]: the document when it exists.
    [db] is [None] when the client could not be created at start-up. *)
Definition cache_get (db : option zip_cache) (zip_code : string) (w : world)
  : result (option cache_entry) :=
  match db with
  | Some store =>
      if cache_get_raises w then Raise OtherException
      else Ok (store !! zip_code)
  | None => Ok None
  end.

(** [if db:] followed by [cache_ref.set(final_result)] in its own [try]:
    a failed write is logged and leaves the collection as it was. *)
Definition cache_set (db : option zip_cache) (zip_code : string)
    (final_result : cache_entry) (w : world) : option zip_cache :=
  match db with
  | Some store =>
      if cache_set_raises w then Some store
      else Some (<[zip_code := final_result]> store)
  | None => None
  end.

(** The body of the outer [try] block.  The only statement that changes
    the collection is [cache_ref.set], and nothing after it raises. *)
Definition handle_try (db : option zip_cache) (b : request_body) (w : world)
  : result (response * option zip_cache) :=
  match b with
  | BodyRejected => Raise OtherException
  | BodyEmpty | BodyWithoutZip =>
      Ok ({| status := 400;
             content := ErrorBody "Missing 'zip_code' in JSON body" |}, db)
  | BodyZip v =>
      let zip_code := py_str v in
      let* cached_data := cache_get db zip_code w in
      match cached_data with
      | Some doc => Ok ({| status := 200; content := ResultBody doc |}, db)
      | None =>
          match fetch_census_demographics (census w) zip_code with
          | None =>
              Ok ({| status := 404;
                     content := ErrorBody (not_found_message zip_code) |}, db)
          | Some data =>
              let* profile := get_gemini_profile (gemini_profile w) data in
              let* doppelgangers :=
                find_doppelgangers (gemini_doppelgangers w) data in
              let final_result := {| r_demographics := data;
                                     r_profile := profile;
                                     r_doppelgangers := doppelgangers |} in
              Ok ({| status := 200; content := ResultBody final_result |},
                  cache_set db zip_code final_result w)
          end
      end
  end.

Definition handle_find_twin (db : option zip_cache) (req : request) (w : world)
  : response * option zip_cache :=
  match req with
  | Options => ({| status := 200; content := EmptyBody |}, db)
  | Post b =>
      match handle_try db b w with
      | Ok r => r
      | Raise _ =>
          ({| status := 500;
              content := ErrorBody "An internal server error occurred." |}, db)
      end
  end.

(** ** Sample inputs *)

(** A two-row payload from (header, cell) pairs. *)
Definition table (cells : list (string * json)) : json :=
  JList [ JList (map (fun c => JStr (fst c)) cells); JList (map snd cells) ].

(** ZIP 90210 with a population of 20000, 3000 under 18 and twelve
    brackets that add up to 5000. *)
Definition beverly_hills : json :=
  table [ ("NAME", JStr "ZCTA5 90210");
          ("B01003_001E", JStr "20000"); ("B01002_001E", JStr "38.5");
          ("B09001_001E", JStr "3000");
          ("B01001_020E", JStr "400"); ("B01001_021E", JStr "400");
          ("B01001_022E", JStr "400"); ("B01001_023E", JStr "400");
          ("B01001_024E", JStr "400"); ("B01001_025E", JStr "500");
          ("B01001_044E", JStr "400"); ("B01001_045E", JStr "400");
          ("B01001_046E", JStr "400"); ("B01001_047E", JStr "400");
          ("B01001_048E", JStr "400"); ("B01001_049E", JStr "500");
          ("B19013_001E", JStr "150000");
          ("B15003_001E", JStr "15000"); ("B15003_022E", JStr "5000");
          ("B15003_023E", JStr "2000"); ("B15003_024E", JStr "1000");
          ("B15003_025E", JStr "500");
          ("B25002_001E", JStr "9000"); ("B25002_002E", JStr "5000");
          ("zip code tabulation area", JStr "90210") ].

Definition beverly_hills_record : demographics :=
  {| name := JStr "ZCTA5 90210"; population := 20000; medianIncome := 150000;
     medianAge := FOfStr "38.5";
     raceWhite := 0; raceBlack := 0; raceNative := 0; raceAsian := 0;
     educationPopulation := 15000; educationBachelors := 5000;
     educationGraduate := 3500;
     medianHomeValue := 0; medianRent := 0;
     housingUnits := 9000; ownerOccupied := 5000; renterOccupied := 0;
     ageUnder18 := 3000; age18to64 := 12000; age65plus := 5000;
     commuteTotal := 0; commuteDrive := 0; commutePublic := 0; commuteWfh := 0;
     zipCode := JStr "90210" |}.

(** A row whose brackets exceed its total population. *)
Definition inconsistent_row : json :=
  table [ ("B01003_001E", JStr "100"); ("B09001_001E", JStr "80");
          ("B01001_020E", JStr "50") ].

(** The record in which every count is zero. *)
Definition empty_record : demographics :=
  {| name := JStr EmptyString; population := 0; medianIncome := 0;
     medianAge := FOfInt 0;
     raceWhite := 0; raceBlack := 0; raceNative := 0; raceAsian := 0;
     educationPopulation := 0; educationBachelors := 0; educationGraduate := 0;
     medianHomeValue := 0; medianRent := 0;
     housingUnits := 0; ownerOccupied := 0; renterOccupied := 0;
     ageUnder18 := 0; age18to64 := 0; age65plus := 0;
     commuteTotal := 0; commuteDrive := 0; commutePublic := 0; commuteWfh := 0;
     zipCode := JStr "00000" |}.

(** A row whose median age is text that is not a number, and the same text
    under a count. *)
Definition median_age_not_numeric : json :=
  table [ ("NAME", JStr "ZCTA5 90210"); ("B01003_001E", JStr "20000");
          ("B01002_001E", JStr "N/A") ].

Definition median_income_not_numeric : json :=
  table [ ("NAME", JStr "ZCTA5 90210"); ("B01003_001E", JStr "20000");
          ("B19013_001E", JStr "N/A") ].

(** A payload with the header row only. *)
Definition header_only : json := JList [ JList [ JStr "NAME"; JStr "B01003_001E" ] ].

(** Replies of the hosted model and worlds in which each collaborator
    answers the same way whatever it is asked. *)
Definition sample_profile : json :=
  JDict [ ("whoAreWe", JStr "An affluent residential community.");
          ("ourNeighborhood", JList [ JStr "Mostly owner-occupied homes." ]);
          ("socioeconomicTraits", JList [ JStr "High household income." ]) ].

Definition sample_doppelgangers : json :=
  JList [ JDict [ ("zipCode", JStr "10583"); ("city", JStr "Scarsdale");
                  ("state", JStr "NY");
                  ("similarityReason", JStr "Similar income and home values.");
                  ("similarityPercentage", JInt 93) ] ].

Definition world_of (get_raises : bool) (up : upstream)
    (profile doppelgangers : model_outcome) (set_raises : bool) : world :=
  {| cache_get_raises := get_raises;
     census := up;
     gemini_profile := fun _ => profile;
     gemini_doppelgangers := fun _ => doppelgangers;
     cache_set_raises := set_raises |}.

Definition all_well : world :=
  world_of false (Payload beverly_hills)
           (Reply sample_profile) (Reply sample_doppelgangers) false.

Definition census_down : world :=
  world_of false ConnectionFailed
           (Reply sample_profile) (Reply sample_doppelgangers) false.

Definition census_header_only : world :=
  world_of false (Payload header_only)
           (Reply sample_profile) (Reply sample_doppelgangers) false.

Definition profile_call_fails : world :=
  world_of false (Payload beverly_hills)
           ModelRaises (Reply sample_doppelgangers) false.


Definition everything_down : world :=
  world_of false ConnectionFailed ModelRaises ModelRaises true.

Definition cache_read_fails : world :=
  world_of true (Payload beverly_hills)
           (Reply sample_profile) (Reply sample_doppelgangers) false.

(** The request [POST /find-twin] with body [{"zip_code": zip_code}]. *)
Definition find_twin (zip_code : string) : request :=
  Post (BodyZip (ZipStr zip_code)).

Definition beverly_hills_entry : cache_entry :=
  {| r_demographics := beverly_hills_record;
     r_profile := sample_profile;
     r_doppelgangers := sample_doppelgangers |}.

(** ** The requested variables and the record of defaults *)

(** The variable codes that the request to the statistics API lists. *)
Definition variables : list string :=
  [ "NAME"; "B01003_001E"; "B01002_001E"; "B09001_001E"; "B01001_020E";
    "B01001_021E"; "B01001_022E"; "B01001_023E"; "B01001_024E"; "B01001_025E";
    "B01001_044E"; "B01001_045E"; "B01001_046E"; "B01001_047E"; "B01001_048E";
    "B01001_049E"; "B19013_001E"; "B25077_001E"; "B25064_001E"; "B02001_002E";
    "B02001_003E"; "B02001_004E"; "B02001_005E"; "B15003_001E"; "B15003_022E";
    "B15003_023E"; "B15003_024E"; "B15003_025E"; "B25002_001E"; "B25002_002E";
    "B25002_003E"; "B08301_001E"; "B08301_002E"; "B08301_010E"; "B08301_021E" ].

(** The names that the extractor looks up: the variables and the
    geography column that the API adds. *)
Definition looked_up : list string := "zip code tabulation area" :: variables.

(** A cell as the statistics API sends it: a string or null. *)
Definition is_text_or_null (c : json) : bool :=
  match c with
  | JStr _ | JNull => true
  | _ => false
  end.

(** The record in which every helper returned its default. *)
Definition default_record (zip_code : string) : demographics :=
  {| name := JStr EmptyString; population := 0; medianIncome := 0;
     medianAge := FOfInt 0;
     raceWhite := 0; raceBlack := 0; raceNative := 0; raceAsian := 0;
     educationPopulation := 0; educationBachelors := 0; educationGraduate := 0;
     medianHomeValue := 0; medianRent := 0;
     housingUnits := 0; ownerOccupied := 0; renterOccupied := 0;
     ageUnder18 := 0; age18to64 := 0; age65plus := 0;
     commuteTotal := 0; commuteDrive := 0; commutePublic := 0; commuteWfh := 0;
     zipCode := JStr zip_code |}.

(** ** Counts of ordinary size *)





(** ** The text of [format_number] *)

Definition is_comma (c : ascii) : bool := Ascii.eqb c ","%char.

(** Digits from the least significant one: a comma after every third
    digit that another digit follows. *)
Fixpoint commas_rev (l : list ascii) : list ascii :=
  match l with
  | a :: b :: c :: r =>
      match r with
      | [] => l
      | _ :: _ => a :: b :: c :: ","%char :: commas_rev r
      end
  | _ => l
  end.

(** The string that [format_number] returns for an int: the decimal digits
    in groups of three, with the sign in front. *)
Definition format_number_text (value : Z) : string :=
  let digits := list_ascii_of_string (py_str (ZipInt (Z.abs value))) in
  let grouped := rev (commas_rev (rev digits)) in
  string_of_list_ascii (if value <? 0 then "-"%char :: grouped else grouped).

(** * Properties *)

(** ** Reasoning about results *)

Lemma bind_Ok {A B : Type} (r : result A) (k : A -> result B) (b : B) :
  bind r k = Ok b -> exists a, r = Ok a /\ k a = Ok b.
Proof. destruct r as [a | e]; simpl; [eauto | discriminate]. Qed.

Lemma mapM_length {A B : Type} (f : A -> result B) (l : list A) (ys : list B) :
  mapM f l = Ok ys -> List.length ys = List.length l.
Proof.
  revert ys. induction l as [| x xs IH]; simpl; intros ys H.
  - injection H as <-. reflexivity.
  - apply bind_Ok in H as (y & _ & H). apply bind_Ok in H as (zs & Hzs & H).
    injection H as <-. simpl. f_equal. apply IH, Hzs.
Qed.

Lemma mapM_Forall2 {A B : Type} (f : A -> result B) (l : list A) (ys : list B) :
  mapM f l = Ok ys -> Forall2 (fun x y => f x = Ok y) l ys.
Proof.
  revert ys. induction l as [| x xs IH]; simpl; intros ys H.
  - injection H as <-. constructor.
  - apply bind_Ok in H as (y & Hy & H). apply bind_Ok in H as (zs & Hzs & H).
    injection H as <-. constructor; [exact Hy | apply IH, Hzs].
Qed.

(** Peels the leading [bind] of a hypothesis [bind r k = Ok _]. *)
Ltac peel H :=
  let x := fresh "x" in
  let E := fresh "E" in
  apply bind_Ok in H as (x & E & H).

(** A successful extraction came from a decoded payload that passed the
    length test. *)
Lemma fetch_Some (up : upstream) (zip_code : string) (d : demographics) :
  fetch_census_demographics up zip_code = Some d ->
  exists data, up = Payload data /\ too_short data = Ok false
               /\ extract data zip_code = Ok d.
Proof.
  unfold fetch_census_demographics, fetch_try. intros H.
  destruct up as [| | | data]; simpl in H; try discriminate.
  exists data. split; [reflexivity |].
  destruct (too_short data) as [[|] | e]; simpl in H; try discriminate.
  destruct (extract data zip_code) as [d' | e]; simpl in H; try discriminate.
  injection H as ->. split; reflexivity.
Qed.

(** What a successful [extract] says about the fields that the age and
    education sums are built from. *)
Lemma extract_derived (data : json) (zip_code : string) (d : demographics) :
  extract data zip_code = Ok d ->
  exists headers values brackets masters professional doctorate,
    py_getitem data 0 = Ok headers /\ py_getitem data 1 = Ok values
    /\ get_value headers values "B01003_001E" = Ok (population d)
    /\ get_value headers values "B09001_001E" = Ok (ageUnder18 d)
    /\ mapM (get_value headers values) age_65_keys = Ok brackets
    /\ age65plus d = sum brackets
    /\ age18to64 d = population d - ageUnder18 d - age65plus d
    /\ get_value headers values "B15003_023E" = Ok masters
    /\ get_value headers values "B15003_024E" = Ok professional
    /\ get_value headers values "B15003_025E" = Ok doctorate
    /\ educationGraduate d = masters + professional + doctorate.
Proof.
  unfold extract. intros H.
  apply bind_Ok in H as (headers & Hh & H).
  apply bind_Ok in H as (values & Hv & H).
  apply bind_Ok in H as (pop & Hpop & H).
  apply bind_Ok in H as (u18 & Hu18 & H).
  apply bind_Ok in H as (brackets & Hb & H).
  apply bind_Ok in H as (m & Hm & H).
  apply bind_Ok in H as (p & Hp & H).
  apply bind_Ok in H as (dr & Hdr & H).
  do 20 peel H.
  injection H as <-. simpl.
  exists headers, values, brackets, m, p, dr. repeat split; assumption.
Qed.

(** Every other count of the record is what [get_value] returns for its
    field name. *)
Lemma extract_direct (data : json) (zip_code : string) (d : demographics) :
  extract data zip_code = Ok d ->
  exists headers values,
    py_getitem data 0 = Ok headers /\ py_getitem data 1 = Ok values
    /\ Forall (fun kv => get_value headers values (fst kv) = Ok (snd kv))
         [ ("B01003_001E", population d); ("B09001_001E", ageUnder18 d);
           ("B19013_001E", medianIncome d);
           ("B02001_002E", raceWhite d); ("B02001_003E", raceBlack d);
           ("B02001_004E", raceNative d); ("B02001_005E", raceAsian d);
           ("B15003_001E", educationPopulation d);
           ("B15003_022E", educationBachelors d);
           ("B25077_001E", medianHomeValue d); ("B25064_001E", medianRent d);
           ("B25002_001E", housingUnits d); ("B25002_002E", ownerOccupied d);
           ("B25002_003E", renterOccupied d);
           ("B08301_001E", commuteTotal d); ("B08301_002E", commuteDrive d);
           ("B08301_010E", commutePublic d); ("B08301_021E", commuteWfh d) ].
Proof.
  unfold extract. intros H.
  apply bind_Ok in H as (headers & Hh & H).
  apply bind_Ok in H as (values & Hv & H).
  repeat peel H.
  injection H as <-. simpl.
  exists headers, values. repeat (split; [assumption |]).
  repeat (constructor; [assumption |]). constructor.
Qed.

(** ** The derived fields of the extractor *)

Example extract_beverly_hills :
  fetch_census_demographics (Payload beverly_hills) "90210"
  = Some beverly_hills_record.
Proof. vm_compute. reflexivity. Qed.

(** C3. Every record that the extractor returns satisfies
    ageUnder18 + age18to64 + age65plus = population, whatever the upstream
    row contains. *)
Theorem age_bands_partition_population
    (up : upstream) (zip_code : string) (d : demographics) :
  fetch_census_demographics up zip_code = Some d ->
  ageUnder18 d + age18to64 d + age65plus d = population d.
Proof.
  intros H. apply fetch_Some in H as (data & _ & _ & H).
  apply extract_derived in H
    as (h & v & bs & m & p & dr & _ & _ & _ & _ & _ & _ & H18 & _).
  rewrite H18. lia.
Qed.

Lemma age_bands_partition_population_witness :
  ageUnder18 beverly_hills_record + age18to64 beverly_hills_record
  + age65plus beverly_hills_record = population beverly_hills_record.
Proof.
  apply (age_bands_partition_population (Payload beverly_hills) "90210").
  vm_compute. reflexivity.
Defined.

(** C4. In every extracted record age65plus is the sum of the values read
    for the twelve brackets B01001_020E..025E and B01001_044E..049E, and
    age18to64 is population - ageUnder18 - age65plus as an unbounded
    integer, without clamping: there is a row for which it is negative. *)
Theorem age_65_plus_and_18_to_64 :
  (forall (up : upstream) (zip_code : string) (d : demographics),
      fetch_census_demographics up zip_code = Some d ->
      exists data headers values brackets,
        up = Payload data
        /\ py_getitem data 0 = Ok headers /\ py_getitem data 1 = Ok values
        /\ Forall2 (fun key v => get_value headers values key = Ok v)
             [ "B01001_020E"; "B01001_021E"; "B01001_022E"; "B01001_023E";
               "B01001_024E"; "B01001_025E"; "B01001_044E"; "B01001_045E";
               "B01001_046E"; "B01001_047E"; "B01001_048E"; "B01001_049E" ]
             brackets
        /\ List.length brackets = 12%nat
        /\ age65plus d = fold_right Z.add 0 brackets
        /\ get_value headers values "B01003_001E" = Ok (population d)
        /\ get_value headers values "B09001_001E" = Ok (ageUnder18 d)
        /\ age18to64 d = population d - ageUnder18 d - age65plus d)
  /\ (exists d', fetch_census_demographics (Payload inconsistent_row) "00000"
                 = Some d'
                 /\ population d' = 100 /\ ageUnder18 d' = 80
                 /\ age65plus d' = 50 /\ age18to64 d' = -30).
Proof.
  split.
  - intros up zip_code d H.
    apply fetch_Some in H as (data & -> & _ & H).
    apply extract_derived in H
      as (h & v & bs & m & p & dr & Hh & Hv & Hpop & Hu & Hbs & H65 & H18 & _).
    exists data, h, v, bs. repeat split; try assumption.
    + apply mapM_Forall2 in Hbs. exact Hbs.
    + apply mapM_length in Hbs. exact Hbs.
    + rewrite H65. unfold sum. apply fold_symmetric; intros; lia.
  - eexists. split; [vm_compute; reflexivity | repeat split].
Qed.

Lemma age_65_plus_and_18_to_64_witness :
  exists brackets,
    List.length brackets = 12%nat
    /\ age65plus beverly_hills_record = fold_right Z.add 0 brackets
    /\ age18to64 beverly_hills_record
       = population beverly_hills_record - ageUnder18 beverly_hills_record
         - age65plus beverly_hills_record.
Proof.
  destruct age_65_plus_and_18_to_64 as [H _].
  destruct (H (Payload beverly_hills) "90210" beverly_hills_record)
    as (data & h & v & bs & _ & _ & _ & _ & Hlen & H65 & _ & _ & H18).
  - vm_compute. reflexivity.
  - exists bs. repeat split; assumption.
Defined.

(** C5. In every extracted record educationGraduate is exactly the sum of
    the values read for B15003_023E, B15003_024E and B15003_025E. *)
Theorem education_graduate_is_sum
    (up : upstream) (zip_code : string) (d : demographics) :
  fetch_census_demographics up zip_code = Some d ->
  exists data headers values masters professional doctorate,
    up = Payload data
    /\ py_getitem data 0 = Ok headers /\ py_getitem data 1 = Ok values
    /\ get_value headers values "B15003_023E" = Ok masters
    /\ get_value headers values "B15003_024E" = Ok professional
    /\ get_value headers values "B15003_025E" = Ok doctorate
    /\ educationGraduate d = masters + professional + doctorate.
Proof.
  intros H. apply fetch_Some in H as (data & -> & _ & H).
  apply extract_derived in H
    as (h & v & bs & m & p & dr & Hh & Hv & _ & _ & _ & _ & _ & Hm & Hp & Hd & Hg).
  exists data, h, v, m, p, dr. repeat split; assumption.
Qed.

Lemma education_graduate_is_sum_witness :
  exists masters professional doctorate,
    educationGraduate beverly_hills_record = masters + professional + doctorate.
Proof.
  destruct (education_graduate_is_sum (Payload beverly_hills) "90210"
              beverly_hills_record)
    as (data & h & v & m & p & dr & _ & _ & _ & _ & _ & _ & H).
  - vm_compute. reflexivity.
  - exists m, p, dr. exact H.
Defined.

(** ** Integer parsing in [get_value] *)






(** A field that is not in the header row, or whose position is beyond the
    data row, gives the default of each helper. *)
Lemma missing_field_defaults (headers values : json) (field_name : string) :
  py_index headers field_name = Raise ValueError ->
  get_value headers values field_name = Ok 0
  /\ get_string_value headers values field_name = Ok (JStr EmptyString).
Proof.
  intros H. unfold get_value, get_string_value. rewrite H. split; reflexivity.
Qed.

Lemma out_of_bounds_defaults
    (headers values : json) (field_name : string) (i : nat) :
  py_index headers field_name = Ok i ->
  py_getitem values i = Raise IndexError ->
  get_value headers values field_name = Ok 0
  /\ get_string_value headers values field_name = Ok (JStr EmptyString).
Proof.
  intros Hi Hv. unfold get_value, get_string_value. rewrite Hi. simpl.
  rewrite Hv. split; reflexivity.
Qed.



(** A cell that is a JSON number and not a string goes through [int] of a
    number: 25.5, which is 51 / 2, becomes 25. *)
Example get_value_number_cell :
  get_value (JList [JStr "B01003_001E"]) (JList [JFloat (B64Finite 51 (-1))])
            "B01003_001E" = Ok 25.
Proof. reflexivity. Qed.

(** ** Failures of the extractor *)

(** C1. A median age that is text but not a number makes the whole
    extraction return no record: [float] raises [ValueError] outside the
    helper that supplies defaults, and the outer handler returns [None].
    The same text under a count field gives 0 in a complete record. *)
Theorem median_age_not_numeric_collapses :
  (exists headers values,
      py_getitem median_age_not_numeric 0 = Ok headers
      /\ py_getitem median_age_not_numeric 1 = Ok values
      /\ get_string_value headers values "B01002_001E" = Ok (JStr "N/A"))
  /\ py_float (py_or (JStr "N/A") (JInt 0)) = Raise ValueError
  /\ extract median_age_not_numeric "90210" = Raise ValueError
  /\ fetch_census_demographics (Payload median_age_not_numeric) "90210" = None
  /\ (exists d, fetch_census_demographics (Payload median_income_not_numeric)
                  "90210" = Some d
                /\ medianIncome d = 0 /\ population d = 20000).
Proof.
  split; [do 2 eexists; repeat split |].
  split; [vm_compute; reflexivity |].
  split; [vm_compute; reflexivity |].
  split; [vm_compute; reflexivity |].
  eexists. split; [vm_compute; reflexivity | split; reflexivity].
Qed.

Lemma too_short_rows (rows : list json) :
  too_short (JList rows) = Ok true <-> (List.length rows < 2)%nat.
Proof.
  unfold too_short. destruct rows as [| r1 [| r2 rows]]; simpl.
  - split; [lia | reflexivity].
  - split; [lia | reflexivity].
  - split; [| lia]. intros H. injection H as H.
    apply Z.ltb_lt in H. lia.
Qed.

(** C6. The extractor returns no record exactly when the request to the
    statistics API fails, when the payload is too short (for a list of
    rows: fewer than two), or when an exception is raised while the
    payload is examined; and the endpoint answers each of these with the
    same 404 response, which mentions the ZIP code only. *)
Theorem extraction_null_exactly :
  (forall (up : upstream) (zip_code : string),
      fetch_census_demographics up zip_code = None <->
      receive up = Raise RequestException
      \/ (exists data, up = Payload data /\ too_short data = Ok true)
      \/ (exists data e,
             up = Payload data
             /\ (too_short data = Raise e
                 \/ (too_short data = Ok false
                     /\ extract data zip_code = Raise e))))
  /\ (forall rows : list json,
        too_short (JList rows) = Ok true <-> (List.length rows < 2)%nat)
  /\ (forall (db : option zip_cache) (v : zip_field) (w : world),
        cache_get db (py_str v) w = Ok None ->
        fetch_census_demographics (census w) (py_str v) = None ->
        handle_find_twin db (Post (BodyZip v)) w
        = ({| status := 404;
              content := ErrorBody (not_found_message (py_str v)) |}, db)).
Proof.
  split; [| split].
  - intros up zip_code. unfold fetch_census_demographics, fetch_try. split.
    + intros H. destruct up as [| | | data]; simpl in *;
        try (left; reflexivity).
      right. destruct (too_short data) as [[|] | e] eqn:Hs; simpl in H.
      * left. exists data. split; [reflexivity | exact Hs].
      * right. destruct (extract data zip_code) as [d | e] eqn:He;
          simpl in H; [discriminate |].
        exists data, e. split; [reflexivity | right; split; assumption].
      * right. exists data, e. split; [reflexivity | left; exact Hs].
    + intros [H | [(data & -> & Hs) | (data & e & -> & [Hs | [Hs He]])]].
      * destruct up; simpl in *; try reflexivity. discriminate.
      * simpl. rewrite Hs. reflexivity.
      * simpl. rewrite Hs. reflexivity.
      * simpl. rewrite Hs. simpl. rewrite He. reflexivity.
  - exact too_short_rows.
  - intros db v w Hc Hf. unfold handle_find_twin, handle_try.
    rewrite Hc. simpl. rewrite Hf. reflexivity.
Qed.

Lemma extraction_null_exactly_witness :
  fetch_census_demographics (Payload header_only) "90210" = None
  /\ handle_find_twin (Some ∅) (find_twin "90210") census_down
     = handle_find_twin (Some ∅) (find_twin "90210") census_header_only.
Proof.
  destruct extraction_null_exactly as (Hnull & Hrows & Hcaller).
  split.
  - apply Hnull. right. left. exists header_only. split; [reflexivity |].
    apply Hrows. simpl. lia.
  - unfold find_twin.
    rewrite (Hcaller (Some ∅) (ZipStr "90210") census_down);
      [| reflexivity | apply Hnull; left; reflexivity].
    rewrite (Hcaller (Some ∅) (ZipStr "90210") census_header_only);
      [reflexivity | reflexivity |].
    apply Hnull. right. left. exists header_only. split; [reflexivity |].
    apply Hrows. simpl. lia.
Defined.

(** ** Derived percentages *)

Lemma percent_zero_denominator (numerator : Z) :
  percent numerator 0 = Ok (NInt 0).
Proof. reflexivity. Qed.

Lemma percent_no_zero_division (numerator denominator : Z) :
  percent numerator denominator <> Raise ZeroDivisionError.
Proof.
  unfold percent, py_truediv.
  destruct (0 <? denominator) eqn:Hpos; [| discriminate].
  apply Z.ltb_lt in Hpos.
  destruct (denominator =? 0) eqn:Hz; [apply Z.eqb_eq in Hz; lia |].
  destruct (_ <=? _); simpl; discriminate.
Qed.

Lemma format_currency_no_zero_division (value : Z) :
  format_currency value <> Raise ZeroDivisionError.
Proof. unfold format_currency. destruct (int_too_large value); discriminate. Qed.

Lemma bind_no_raise {A B : Type} (r : result A) (k : A -> result B) (e : exn) :
  r <> Raise e -> (forall a, k a <> Raise e) -> bind r k <> Raise e.
Proof. destruct r as [a | e']; simpl; [auto | congruence]. Qed.

Lemma profile_prompt_no_zero_division (data : demographics) :
  profile_prompt data <> Raise ZeroDivisionError.
Proof.
  unfold profile_prompt.
  repeat (apply bind_no_raise;
          [first [apply percent_no_zero_division
                 | apply format_currency_no_zero_division] | intros ?]).
  discriminate.
Qed.

Lemma doppelganger_prompt_no_zero_division (data : demographics) :
  doppelganger_prompt data <> Raise ZeroDivisionError.
Proof.
  unfold doppelganger_prompt.
  repeat (apply bind_no_raise;
          [first [apply percent_no_zero_division
                 | apply format_currency_no_zero_division] | intros ?]).
  discriminate.
Qed.

(** C8. A zero denominator (educationPopulation, housingUnits,
    commuteTotal, population) makes the percentage computed from it the
    integer 0, in the profile generator and in the similarity finder, and
    neither function ever raises ZeroDivisionError. *)
Theorem zero_denominator_gives_zero (data : demographics) :
  (educationPopulation data = 0 ->
     GeminiProfile.higher_ed_percent data = Ok (NInt 0)
     /\ Doppelgangers.higher_ed_percent data = Ok (NInt 0))
  /\ (housingUnits data = 0 ->
        GeminiProfile.owner_occupied_percent data = Ok (NInt 0)
        /\ Doppelgangers.owner_occupied_percent data = Ok (NInt 0))
  /\ (commuteTotal data = 0 -> GeminiProfile.wfh_percent data = Ok (NInt 0))
  /\ (population data = 0 ->
        GeminiProfile.age_under_18_percent data = Ok (NInt 0)
        /\ GeminiProfile.age_65_plus_percent data = Ok (NInt 0))
  /\ (forall gemini : prompt -> model_outcome,
        get_gemini_profile gemini data <> Raise ZeroDivisionError
        /\ find_doppelgangers gemini data <> Raise ZeroDivisionError).
Proof.
  split; [| split; [| split; [| split]]].
  - intros H. split.
    + unfold GeminiProfile.higher_ed_percent. rewrite H. reflexivity.
    + unfold Doppelgangers.higher_ed_percent. rewrite H. reflexivity.
  - intros H. split.
    + unfold GeminiProfile.owner_occupied_percent. rewrite H. reflexivity.
    + unfold Doppelgangers.owner_occupied_percent. rewrite H. reflexivity.
  - intros H. unfold GeminiProfile.wfh_percent. rewrite H. reflexivity.
  - intros H. split.
    + unfold GeminiProfile.age_under_18_percent. rewrite H. reflexivity.
    + unfold GeminiProfile.age_65_plus_percent. rewrite H. reflexivity.
  - intros gemini. split.
    + unfold get_gemini_profile. apply bind_no_raise.
      * apply profile_prompt_no_zero_division.
      * intros p. destruct (model_reply (gemini p)); discriminate.
    + unfold find_doppelgangers. apply bind_no_raise.
      * apply doppelganger_prompt_no_zero_division.
      * intros p. destruct (model_reply (gemini p)); discriminate.
Qed.

Lemma zero_denominator_gives_zero_witness :
  GeminiProfile.higher_ed_percent empty_record = Ok (NInt 0)
  /\ Doppelgangers.higher_ed_percent empty_record = Ok (NInt 0)
  /\ GeminiProfile.owner_occupied_percent empty_record = Ok (NInt 0)
  /\ Doppelgangers.owner_occupied_percent empty_record = Ok (NInt 0)
  /\ GeminiProfile.wfh_percent empty_record = Ok (NInt 0)
  /\ GeminiProfile.age_under_18_percent empty_record = Ok (NInt 0)
  /\ GeminiProfile.age_65_plus_percent empty_record = Ok (NInt 0).
Proof.
  destruct (zero_denominator_gives_zero empty_record)
    as (Hedu & Hhousing & Hcommute & Hpop & _).
  destruct (Hedu eq_refl) as [H1 H2].
  destruct (Hhousing eq_refl) as [H3 H4].
  destruct (Hpop eq_refl) as [H6 H7].
  exact (conj H1 (conj H2 (conj H3 (conj H4
           (conj (Hcommute eq_refl) (conj H6 H7)))))).
Defined.

(** ** The endpoint *)

(** The prompt of the similarity finder needs nothing that the prompt of
    the profile generator has not already computed. *)
Lemma profile_prompt_then_doppelganger_prompt (data : demographics) (p : prompt) :
  profile_prompt data = Ok p -> exists q, doppelganger_prompt data = Ok q.
Proof.
  unfold profile_prompt. intros H.
  apply bind_Ok in H as (he & Hhe & H).
  apply bind_Ok in H as (oo & Hoo & H).
  do 3 peel H.
  apply bind_Ok in H as (inc & Hinc & H).
  apply bind_Ok in H as (hv & Hhv & H).
  unfold doppelganger_prompt.
  change (Doppelgangers.higher_ed_percent data)
    with (GeminiProfile.higher_ed_percent data).
  change (Doppelgangers.owner_occupied_percent data)
    with (GeminiProfile.owner_occupied_percent data).
  rewrite Hhe, Hoo. simpl. rewrite Hinc, Hhv. simpl. eauto.
Qed.

Lemma find_doppelgangers_returns (gemini : prompt -> model_outcome)
    (data : demographics) (q : prompt) :
  doppelganger_prompt data = Ok q ->
  exists doppelgangers, find_doppelgangers gemini data = Ok doppelgangers.
Proof.
  intros Hq. unfold find_doppelgangers. rewrite Hq. simpl.
  destruct (model_reply (gemini q)); eauto.
Qed.



(** A document found under the ZIP code is returned as it is; nothing
    else of the world is consulted and the collection is left alone. *)
Lemma cache_hit (store : zip_cache) (v : zip_field) (w : world)
    (doc : cache_entry) :
  cache_get_raises w = false ->
  store !! py_str v = Some doc ->
  handle_find_twin (Some store) (Post (BodyZip v)) w
  = ({| status := 200; content := ResultBody doc |}, Some store).
Proof.
  intros Hget Hdoc. unfold handle_find_twin, handle_try, cache_get.
  rewrite Hget. simpl. rewrite Hdoc. reflexivity.
Qed.

(** C9. With a store that answers reads and writes, a lookup that is
    answered with an entry leaves that entry in the collection under the
    ZIP code, and the next lookup of the same ZIP code is answered with the
    same status and body, whatever the statistics API and the model would
    do then, and leaves the collection as it is.  When the collaborators
    behave the same way on both requests, the two responses are equal
    whatever the first one is. *)
Theorem second_lookup_returns_stored_entry
    (store : zip_cache) (v : zip_field) (w1 w2 : world) :
  cache_get_raises w1 = false ->
  cache_set_raises w1 = false ->
  cache_get_raises w2 = false ->
  (status (fst (handle_find_twin (Some store) (Post (BodyZip v)) w1)) = 200 ->
   exists (final_result : cache_entry) (store1 : zip_cache),
     handle_find_twin (Some store) (Post (BodyZip v)) w1
     = ({| status := 200; content := ResultBody final_result |}, Some store1)
     /\ store1 !! py_str v = Some final_result
     /\ handle_find_twin (Some store1) (Post (BodyZip v)) w2
        = ({| status := 200; content := ResultBody final_result |}, Some store1))
  /\ fst (handle_find_twin
            (snd (handle_find_twin (Some store) (Post (BodyZip v)) w1))
            (Post (BodyZip v)) w1)
     = fst (handle_find_twin (Some store) (Post (BodyZip v)) w1).
Proof.
  intros Hget1 Hset1 Hget2.
  destruct (handle_find_twin (Some store) (Post (BodyZip v)) w1)
    as [resp st1] eqn:H1.
  pose proof H1 as Hfirst.
  unfold handle_find_twin, handle_try, cache_get, cache_set in H1.
  rewrite Hget1, Hset1 in H1. simpl in H1.
  destruct (store !! py_str v) as [doc |] eqn:Hdoc.
  { injection H1 as <- <-. split.
    - intros _. exists doc, store. split; [reflexivity |].
      split; [exact Hdoc | apply cache_hit; assumption].
    - cbn [fst snd]. rewrite Hfirst. reflexivity. }
  destruct (fetch_census_demographics (census w1) (py_str v)) as [data |].
  2:{ injection H1 as <- <-. split; [discriminate |].
      cbn [fst snd]. rewrite Hfirst. reflexivity. }
  destruct (get_gemini_profile (gemini_profile w1) data) as [profile | e].
  2:{ injection H1 as <- <-. split; [discriminate |].
      cbn [fst snd]. rewrite Hfirst. reflexivity. }
  simpl in H1.
  destruct (find_doppelgangers (gemini_doppelgangers w1) data)
    as [doppelgangers | e].
  2:{ injection H1 as <- <-. split; [discriminate |].
      cbn [fst snd]. rewrite Hfirst. reflexivity. }
  injection H1 as <- <-. split.
  - intros _. eexists. eexists. split; [reflexivity |].
    split; [apply lookup_insert_eq |].
    apply cache_hit; [exact Hget2 | apply lookup_insert_eq].
  - cbn [fst snd]. rewrite (cache_hit _ v w1 _ Hget1 (lookup_insert_eq _ _ _)).
    reflexivity.
Qed.

Lemma second_lookup_returns_stored_entry_witness :
  exists store1 : zip_cache,
    handle_find_twin (Some ∅) (find_twin "90210") all_well
    = ({| status := 200; content := ResultBody beverly_hills_entry |},
       Some store1)
    /\ handle_find_twin (Some store1) (find_twin "90210") everything_down
       = ({| status := 200; content := ResultBody beverly_hills_entry |},
          Some store1).
Proof.
  destruct (second_lookup_returns_stored_entry ∅ (ZipStr "90210")
              all_well everything_down) as [H _];
    [reflexivity | reflexivity | reflexivity |].
  destruct H as (final_result & store1 & H1 & _ & H2);
    [vm_compute; reflexivity |].
  assert (Hentry : final_result = beverly_hills_entry).
  { apply (f_equal (fun r => content (fst r))) in H1.
    vm_compute in H1. injection H1 as <-. reflexivity. }
  subst final_result. exists store1. unfold find_twin. split; assumption.
Defined.

(** ** Failures of the cache store *)

(** A client that could not be created at start-up answers like a store
    that has no document for the ZIP code. *)
Lemma cache_absent_is_a_miss (store : zip_cache) (v : zip_field) (w : world) :
  cache_get_raises w = false ->
  store !! py_str v = None ->
  fst (handle_find_twin (Some store) (Post (BodyZip v)) w)
  = fst (handle_find_twin None (Post (BodyZip v)) w).
Proof.
  intros Hget Hnone. unfold handle_find_twin, handle_try, cache_get.
  rewrite Hget. simpl. rewrite Hnone.
  destruct (fetch_census_demographics (census w) (py_str v)) as [data |];
    [| reflexivity].
  destruct (get_gemini_profile (gemini_profile w) data); [| reflexivity].
  simpl.
  destruct (find_doppelgangers (gemini_doppelgangers w) data); reflexivity.
Qed.

(** A failed write changes nothing in the response. *)
Lemma cache_write_failure_same_response
    (db : option zip_cache) (req : request) (w w' : world) :
  cache_get_raises w = cache_get_raises w' ->
  census w = census w' ->
  gemini_profile w = gemini_profile w' ->
  gemini_doppelgangers w = gemini_doppelgangers w' ->
  fst (handle_find_twin db req w) = fst (handle_find_twin db req w').
Proof.
  intros Hget Hcensus Hprofile Hfinder.
  destruct req as [| [| | | v]]; try reflexivity.
  unfold handle_find_twin, handle_try, cache_get.
  rewrite <- Hget, <- Hcensus, <- Hprofile, <- Hfinder.
  destruct db as [store |]; simpl.
  - destruct (cache_get_raises w); simpl; [reflexivity |].
    destruct (store !! py_str v); [reflexivity |].
    destruct (fetch_census_demographics (census w) (py_str v)) as [data |];
      [| reflexivity].
    destruct (get_gemini_profile (gemini_profile w) data); [| reflexivity].
    simpl.
    destruct (find_doppelgangers (gemini_doppelgangers w) data); reflexivity.
  - destruct (fetch_census_demographics (census w) (py_str v)) as [data |];
      [| reflexivity].
    destruct (get_gemini_profile (gemini_profile w) data); [| reflexivity].
    simpl.
    destruct (find_doppelgangers (gemini_doppelgangers w) data); reflexivity.
Qed.

(** A read that raises is not handled where it happens: it reaches the
    outer handler. *)
Lemma cache_read_failure (store : zip_cache) (v : zip_field) (w : world) :
  cache_get_raises w = true ->
  handle_find_twin (Some store) (Post (BodyZip v)) w
  = ({| status := 500;
        content := ErrorBody "An internal server error occurred." |},
     Some store).
Proof.
  intros Hget. unfold handle_find_twin, handle_try, cache_get.
  rewrite Hget. reflexivity.
Qed.

(** C2. When the read of the cached document raises, the request is
    answered with status 500, although the same request without any cache
    is answered with status 200 and the combined entry. *)
Theorem cache_read_failure_is_internal_error :
  handle_find_twin (Some ∅) (find_twin "90210") cache_read_fails
  = ({| status := 500;
        content := ErrorBody "An internal server error occurred." |}, Some ∅)
  /\ handle_find_twin None (find_twin "90210") cache_read_fails
     = ({| status := 200; content := ResultBody beverly_hills_entry |}, None).
Proof.
  split.
  - apply cache_read_failure. reflexivity.
  - vm_compute. reflexivity.
Qed.

(** ** Literals *)

Example int_of_string_ex :
  int_of_string "20000" = Some 20000 /\ int_of_string " -1_000 " = Some (-1000)
  /\ int_of_string "007" = Some 7 /\ int_of_string "25.5" = None
  /\ int_of_string EmptyString = None /\ int_of_string "1__0" = None
  /\ int_of_string "N/A" = None /\ int_of_string "+ 5" = None.
Proof. vm_compute. repeat split. Qed.

Example is_float_literal_ex :
  is_float_literal "38.5" = true /\ is_float_literal " -1e-3 " = true
  /\ is_float_literal ".5" = true /\ is_float_literal "1." = true
  /\ is_float_literal "-Infinity" = true /\ is_float_literal "NaN" = true
  /\ is_float_literal "1_0.2_5" = true /\ is_float_literal "-666666666" = true
  /\ is_float_literal "N/A" = false /\ is_float_literal "." = false
  /\ is_float_literal "1e" = false /\ is_float_literal "1_.5" = false
  /\ is_float_literal EmptyString = false /\ is_float_literal "12 3" = false.
Proof. vm_compute. repeat split. Qed.

(** * Further properties of the code *)

(** ** The two helpers on list rows *)

Lemma get_string_value_rows (hs vs : list json) (field_name : string) :
  exists c, get_string_value (JList hs) (JList vs) field_name = Ok c
            /\ (c = JStr EmptyString \/ c ∈ vs).
Proof.
  unfold get_string_value, py_index, py_getitem.
  destruct (list_index field_name hs 0) as [i |]; simpl; [| eauto].
  destruct (vs !! i) as [c |] eqn:Hc; simpl; [| eauto].
  exists c. split; [reflexivity |]. right. eapply list_elem_of_lookup_2, Hc.
Qed.

Lemma get_value_rows_raise (hs vs : list json) (field_name : string) (e : exn) :
  get_value (JList hs) (JList vs) field_name = Raise e ->
  e = OverflowError
  /\ exists i b, list_index field_name hs 0 = Some i
                 /\ vs !! i = Some (JFloat (B64Inf b)).
Proof.
  unfold get_value, py_index, py_getitem.
  destruct (list_index field_name hs 0) as [i |]; simpl; [| discriminate].
  destruct (vs !! i) as [c |] eqn:Hc; simpl; [| discriminate].
  destruct c as [| b | z | [m x | b |] | s | l | d]; simpl; try discriminate.
  - intros H. injection H as <-. eauto.
  - destruct (int_of_string s); simpl; discriminate.
Qed.

Lemma helpers_on_list_rows_aux (hs vs : list json) (field_name : string) :
  (exists c, get_string_value (JList hs) (JList vs) field_name = Ok c)
  /\ (forall e, get_value (JList hs) (JList vs) field_name = Raise e ->
                e = OverflowError
                /\ exists i b, list_index field_name hs 0 = Some i
                               /\ vs !! i = Some (JFloat (B64Inf b)))
  /\ (Forall (fun c => is_text_or_null c = true) vs ->
      exists z, get_value (JList hs) (JList vs) field_name = Ok z).
Proof.
  split; [| split].
  - destruct (get_string_value_rows hs vs field_name) as (c & Hc & _). eauto.
  - apply get_value_rows_raise.
  - intros Hcells.
    destruct (get_value (JList hs) (JList vs) field_name) as [z | e] eqn:Hg;
      [eauto |].
    apply get_value_rows_raise in Hg as (_ & i & b & _ & Hi).
    rewrite Forall_lookup in Hcells. apply Hcells in Hi. discriminate.
Qed.

(** X1. When the header row and the data row are lists, [get_string_value]
    always returns, and [get_value] raises in one case only: the cell under
    the field name is an infinite JSON number, and the exception is
    OverflowError.  With cells that are strings or null [get_value] always
    returns an integer. *)
Theorem helpers_on_list_rows (hs vs : list json) (field_name : string) :
  (exists c, get_string_value (JList hs) (JList vs) field_name = Ok c)
  /\ (forall e, get_value (JList hs) (JList vs) field_name = Raise e ->
                e = OverflowError
                /\ exists i b, list_index field_name hs 0 = Some i
                               /\ vs !! i = Some (JFloat (B64Inf b)))
  /\ (Forall (fun c => is_text_or_null c = true) vs ->
      exists z, get_value (JList hs) (JList vs) field_name = Ok z).
Proof. apply helpers_on_list_rows_aux. Qed.

Lemma helpers_on_list_rows_witness :
  (exists z, get_value (JList [JStr "B01003_001E"; JStr "B19013_001E"])
                       (JList [JStr "20000"; JNull]) "B19013_001E" = Ok z)
  /\ get_value (JList [JStr "B01003_001E"]) (JList [JFloat (B64Inf false)])
               "B01003_001E" = Raise OverflowError.
Proof.
  split.
  - apply (helpers_on_list_rows [JStr "B01003_001E"; JStr "B19013_001E"]
             [JStr "20000"; JNull] "B19013_001E").
    repeat constructor.
  - destruct (get_value (JList [JStr "B01003_001E"])
                (JList [JFloat (B64Inf false)]) "B01003_001E") as [z | e] eqn:H;
      [vm_compute in H; discriminate |].
    destruct (helpers_on_list_rows [JStr "B01003_001E"]
                [JFloat (B64Inf false)] "B01003_001E") as (_ & Hraise & _).
    destruct (Hraise e H) as [-> _]. reflexivity.
Defined.

(** ** When the extraction succeeds *)

Lemma mapM_total {A B : Type} (f : A -> result B) (l : list A) :
  (forall x, exists y, f x = Ok y) -> exists ys, mapM f l = Ok ys.
Proof.
  intros Hf. induction l as [| x xs [ys IH]]; simpl; [eauto |].
  destruct (Hf x) as [y ->]. simpl. rewrite IH. simpl. eauto.
Qed.

Lemma too_short_long (r1 r2 : json) (rest : list json) :
  too_short (JList (r1 :: r2 :: rest)) = Ok false.
Proof.
  unfold too_short. simpl. f_equal. apply Z.ltb_ge. lia.
Qed.

(** With helpers that always return, the conversion of the median age is
    the only step of [extract] that can raise. *)
Lemma extract_with_total_helpers
    (data headers values : json) (zip_code : string) (raw : json) :
  py_getitem data 0 = Ok headers ->
  py_getitem data 1 = Ok values ->
  (forall f, exists z, get_value headers values f = Ok z) ->
  (forall f, exists c, get_string_value headers values f = Ok c) ->
  get_string_value headers values "B01002_001E" = Ok raw ->
  match py_float (py_or raw (JInt 0)) with
  | Ok age => exists d, extract data zip_code = Ok d /\ medianAge d = age
  | Raise e => extract data zip_code = Raise e
  end.
Proof.
  intros Hh Hv Hgv Hgs Hraw. unfold extract. rewrite Hh, Hv. cbn [bind].
  destruct (mapM_total (get_value headers values) age_65_keys Hgv) as [bs ->].
  repeat match goal with
    | |- context [bind (get_string_value headers values "B01002_001E") _] =>
        rewrite Hraw; cbn [bind]
    | |- context [bind (get_value headers values ?f) _] =>
        destruct (Hgv f) as [? ->]; cbn [bind]
    | |- context [bind (get_string_value headers values ?f) _] =>
        destruct (Hgs f) as [? ->]; cbn [bind]
    end.
  destruct (py_float (py_or raw (JInt 0))) as [age | e]; cbn [bind]; eauto.
Qed.

(** X2. On a payload of at least two rows whose first two rows are lists
    and whose data cells are strings or null, the extractor returns no
    record exactly when the median-age cell is a non-empty string that is
    not a float literal. *)
Theorem extraction_fails_only_on_median_age
    (hs vs rest : list json) (zip_code : string) :
  Forall (fun c => is_text_or_null c = true) vs ->
  fetch_census_demographics (Payload (JList (JList hs :: JList vs :: rest)))
                            zip_code = None
  <-> exists s, get_string_value (JList hs) (JList vs) "B01002_001E" = Ok (JStr s)
                /\ s <> EmptyString /\ is_float_literal s = false.
Proof.
  intros Hcells.
  destruct (get_string_value_rows hs vs "B01002_001E") as (raw & Hraw & Hin).
  assert (Htext : is_text_or_null raw = true).
  { destruct Hin as [-> | Hin]; [reflexivity |].
    rewrite Forall_forall in Hcells. apply Hcells, Hin. }
  pose proof (extract_with_total_helpers
                (JList (JList hs :: JList vs :: rest)) (JList hs) (JList vs)
                zip_code raw eq_refl eq_refl) as Hex.
  specialize (Hex (fun f => proj2 (proj2 (helpers_on_list_rows_aux hs vs f)) Hcells)).
  specialize (Hex (fun f => proj1 (helpers_on_list_rows_aux hs vs f)) Hraw).
  unfold fetch_census_demographics, fetch_try. cbn [receive bind].
  rewrite too_short_long. cbn [bind].
  destruct raw as [| b | z | x | s | l | d]; try discriminate.
  - (* null *)
    assert (E : py_float (py_or JNull (JInt 0)) = Ok (FOfInt 0))
      by (vm_compute; reflexivity).
    rewrite E in Hex. destruct Hex as (d & -> & _). cbn [bind].
    split; [discriminate |]. intros (s & Hs & _). congruence.
  - (* a string *)
    destruct (String.eqb s EmptyString) eqn:Hempty.
    + apply String.eqb_eq in Hempty. subst s.
      assert (E : py_float (py_or (JStr EmptyString) (JInt 0)) = Ok (FOfInt 0))
        by (vm_compute; reflexivity).
      rewrite E in Hex. destruct Hex as (d & -> & _). cbn [bind].
      split; [discriminate |]. intros (s & Hs & Hne & _).
      rewrite Hraw in Hs. injection Hs as <-. congruence.
    + assert (E : py_float (py_or (JStr s) (JInt 0))
                  = if is_float_literal s then Ok (FOfStr s) else Raise ValueError)
        by (unfold py_or, py_truthy; rewrite Hempty; reflexivity).
      rewrite E in Hex.
      destruct (is_float_literal s) eqn:Hlit.
      * destruct Hex as (d & -> & _). cbn [bind].
        split; [discriminate |]. intros (s' & Hs & _ & Hno).
        rewrite Hraw in Hs. injection Hs as <-. congruence.
      * rewrite Hex. cbn [bind]. split; [| reflexivity]. intros _.
        exists s. split; [exact Hraw |]. split; [| exact Hlit].
        intros ->. discriminate.
Qed.

Lemma extraction_fails_only_on_median_age_witness :
  fetch_census_demographics (Payload median_age_not_numeric) "90210" = None.
Proof.
  apply (proj2 (extraction_fails_only_on_median_age
                  [JStr "NAME"; JStr "B01003_001E"; JStr "B01002_001E"]
                  [JStr "ZCTA5 90210"; JStr "20000"; JStr "N/A"] [] "90210"
                  ltac:(repeat constructor))).
  exists "N/A". split; [reflexivity |]. split; [discriminate | reflexivity].
Defined.

(** ** Payloads without the requested columns *)

(** When no looked-up name is found in the header, every helper returns
    its default and [extract] returns the record of defaults. *)
Lemma extract_without_columns (data headers values : json) (zip_code : string) :
  py_getitem data 0 = Ok headers ->
  py_getitem data 1 = Ok values ->
  Forall (fun k => py_index headers k = Raise ValueError) looked_up ->
  extract data zip_code = Ok (default_record zip_code).
Proof.
  intros Hh Hv Hall. unfold extract. rewrite Hh, Hv. cbn [bind mapM age_65_keys].
  unfold looked_up, variables in Hall.
  repeat match goal with
    | H : Forall _ (_ :: _) |- _ => apply Forall_cons_1 in H as [? H]
    end.
  repeat match goal with
    | H : py_index headers ?k = Raise ValueError |- _ =>
        destruct (missing_field_defaults headers values k H) as [Hgv Hgs];
        rewrite ?Hgv, ?Hgs; clear H Hgv Hgs
    end.
  vm_compute. reflexivity.
Qed.

(** X3. When the header row is a list that contains none of the names the
    extractor looks up, the extractor still returns a record, whatever the
    second row is: every count is 0, the name is the empty string, the
    median age is float(0) and zipCode is the ZIP code of the request. *)
Theorem no_requested_column_gives_defaults
    (hs : list json) (values : json) (rest : list json) (zip_code : string) :
  Forall (fun k => list_index k hs 0 = None) looked_up ->
  fetch_census_demographics (Payload (JList (JList hs :: values :: rest)))
                            zip_code
  = Some (default_record zip_code).
Proof.
  intros Hall. unfold fetch_census_demographics, fetch_try. cbn [receive bind].
  rewrite too_short_long. cbn [bind].
  rewrite (extract_without_columns (JList (JList hs :: values :: rest))
             (JList hs) values zip_code eq_refl eq_refl).
  - reflexivity.
  - eapply Forall_impl; [exact Hall |]. intros k Hk. simpl in Hk |- *.
    rewrite Hk. reflexivity.
Qed.

Lemma no_requested_column_gives_defaults_witness :
  fetch_census_demographics
    (Payload (JList [JList [JStr "error"]; JStr "unknown variable"])) "00000"
  = Some (default_record "00000").
Proof.
  apply (no_requested_column_gives_defaults [JStr "error"]
           (JStr "unknown variable") [] "00000").
  unfold looked_up, variables. repeat constructor.
Defined.

Lemma py_index_character (a : ascii) (k : string) :
  (2 <= String.length k)%nat ->
  py_index (JStr (String a EmptyString)) k = Raise ValueError.
Proof.
  destruct k as [| c1 [| c2 k]]; simpl; try lia. intros _.
  unfold py_index. simpl. rewrite andb_false_r. reflexivity.
Qed.

(** X4. A payload that is a JSON string of at least two characters passes
    the length test, its first two characters are taken for the header and
    the data row, and the extractor returns the record of defaults. *)
Theorem string_payload_gives_defaults (s : string) (zip_code : string) :
  (2 <= String.length s)%nat ->
  fetch_census_demographics (Payload (JStr s)) zip_code
  = Some (default_record zip_code).
Proof.
  destruct s as [| a [| b s]]; simpl; try lia. intros _.
  unfold fetch_census_demographics, fetch_try. cbn [receive bind].
  assert (Hshort : too_short (JStr (String a (String b s))) = Ok false).
  { unfold too_short. simpl. f_equal. apply Z.ltb_ge. lia. }
  rewrite Hshort. cbn [bind].
  rewrite (extract_without_columns (JStr (String a (String b s)))
             (JStr (String a EmptyString)) (JStr (String b EmptyString))
             zip_code eq_refl eq_refl).
  - reflexivity.
  - unfold looked_up, variables.
    repeat (constructor; [apply py_index_character; simpl; lia |]).
    constructor.
Qed.

Lemma string_payload_gives_defaults_witness :
  fetch_census_demographics (Payload (JStr "Service unavailable")) "90210"
  = Some (default_record "90210").
Proof.
  apply string_payload_gives_defaults. simpl. lia.
Defined.

(** ** The shape of a payload that yields a record *)

(** X5. A record can only come from a payload that is a list of at least
    two elements whose first element is a list or a string, or from a
    string of at least two characters: null, booleans, numbers and objects
    never yield a record.  Of a list only the first two elements are
    read. *)
Theorem record_needs_two_rows :
  (forall (data : json) (zip_code : string) (d : demographics),
      fetch_census_demographics (Payload data) zip_code = Some d ->
      (exists h v rest,
          data = JList (h :: v :: rest)
          /\ ((exists hs, h = JList hs) \/ (exists s, h = JStr s)))
      \/ (exists s, data = JStr s /\ (2 <= String.length s)%nat))
  /\ (forall (h v : json) (rest : list json) (zip_code : string),
        fetch_census_demographics (Payload (JList (h :: v :: rest))) zip_code
        = fetch_census_demographics (Payload (JList [h; v])) zip_code).
Proof.
  split.
  - intros data zip_code d H.
    apply fetch_Some in H as (data' & Hd & Hshort & Hex).
    injection Hd as <-.
    destruct data as [| b | z | [m x | b |] | s | l | o].
    + discriminate.
    + destruct b; discriminate.
    + unfold too_short in Hshort. simpl in Hshort.
      destruct (z =? 0); discriminate.
    + unfold too_short in Hshort. simpl in Hshort.
      destruct (m =? 0); discriminate.
    + discriminate.
    + discriminate.
    + right. exists s. split; [reflexivity |].
      destruct s as [| a [| c s]]; simpl; try lia; discriminate.
    + left. destruct l as [| h [| v rest]]; try discriminate.
      exists h, v, rest. split; [reflexivity |].
      destruct h as [| b | z | f | s | hs | o]; eauto;
        unfold extract in Hex; cbn in Hex; discriminate.
    + destruct o as [| p [| q o]]; discriminate.
  - intros h v rest zip_code.
    unfold fetch_census_demographics, fetch_try. cbn [receive bind].
    rewrite !too_short_long. reflexivity.
Qed.

Lemma record_needs_two_rows_witness :
  (exists h v rest,
      beverly_hills = JList (h :: v :: rest)
      /\ ((exists hs, h = JList hs) \/ (exists s, h = JStr s)))
  \/ (exists s, beverly_hills = JStr s /\ (2 <= String.length s)%nat).
Proof.
  destruct record_needs_two_rows as [H _].
  apply (H beverly_hills "90210" beverly_hills_record).
  vm_compute. reflexivity.
Defined.

(** ** Lookup by name *)

Lemma table_index (cells : list (string * json)) (field_name : string) (i : nat) :
  match list_index field_name (map (fun c => JStr (fst c)) cells) i with
  | Some j =>
      exists k c, j = (i + k)%nat /\ map snd cells !! k = Some c
                  /\ (list_to_map cells : gmap string json) !! field_name = Some c
  | None => (list_to_map cells : gmap string json) !! field_name = None
  end.
Proof.
  revert i. induction cells as [| [k0 v0] cells IH]; intros i; simpl.
  - apply lookup_empty.
  - destruct (String.eqb k0 field_name) eqn:Hk.
    + apply String.eqb_eq in Hk. subst k0.
      exists 0%nat, v0. split; [lia |]. split; [reflexivity |].
      apply lookup_insert_eq.
    + apply String.eqb_neq in Hk. specialize (IH (S i)).
      destruct (list_index field_name (map (fun c => JStr (fst c)) cells) (S i))
        as [j |].
      * destruct IH as (k & c & -> & Hc & Hm).
        exists (S k), c. split; [lia |]. split; [exact Hc |].
        rewrite lookup_insert_ne by exact Hk. exact Hm.
      * rewrite lookup_insert_ne by exact Hk. exact IH.
Qed.

(** The cell that the two helpers read from a table is the one a
    dictionary built from the columns holds under the name. *)
Lemma table_cell (cells : list (string * json)) (field_name : string) :
  bind (py_index (JList (map (fun c => JStr (fst c)) cells)) field_name)
       (py_getitem (JList (map snd cells)))
  = match (list_to_map cells : gmap string json) !! field_name with
    | Some c => Ok c
    | None => Raise ValueError
    end.
Proof.
  unfold py_index. pose proof (table_index cells field_name 0) as H.
  destruct (list_index field_name (map (fun c => JStr (fst c)) cells) 0) as [j |].
  - destruct H as (k & c & -> & Hc & ->). simpl. rewrite Hc. reflexivity.
  - rewrite H. reflexivity.
Qed.

Lemma table_get_value (cells : list (string * json)) (field_name : string) :
  get_value (JList (map (fun c => JStr (fst c)) cells)) (JList (map snd cells))
            field_name
  = try_except
      match (list_to_map cells : gmap string json) !! field_name with
      | Some c => py_int c
      | None => Raise ValueError
      end 0.
Proof.
  unfold get_value. f_equal.
  pose proof (table_cell cells field_name) as H.
  destruct (py_index (JList (map (fun c => JStr (fst c)) cells)) field_name)
    as [i | e]; simpl in H |- *.
  - rewrite H. destruct (list_to_map cells !! field_name); reflexivity.
  - destruct (list_to_map cells !! field_name); [discriminate |].
    injection H as ->. reflexivity.
Qed.

Lemma table_get_string_value (cells : list (string * json)) (field_name : string) :
  get_string_value (JList (map (fun c => JStr (fst c)) cells))
                   (JList (map snd cells)) field_name
  = try_except
      match (list_to_map cells : gmap string json) !! field_name with
      | Some c => Ok c
      | None => Raise ValueError
      end (JStr EmptyString).
Proof.
  unfold get_string_value. f_equal. apply table_cell.
Qed.

(** X6. When the same name stands over several columns of a table, both
    helpers read the first of these columns: [get_value] returns the
    integer of its cell (0 when the cell is not an integer) and
    [get_string_value] the cell itself.  The later columns are never
    read. *)
Theorem first_column_with_the_name_wins
    (before after : list (string * json)) (field_name : string) (c : json) :
  Forall (fun col => fst col <> field_name) before ->
  get_value (JList (map (fun c => JStr (fst c))
                        (before ++ (field_name, c) :: after)))
            (JList (map snd (before ++ (field_name, c) :: after))) field_name
  = try_except (py_int c) 0
  /\ get_string_value
       (JList (map (fun c => JStr (fst c))
                   (before ++ (field_name, c) :: after)))
       (JList (map snd (before ++ (field_name, c) :: after))) field_name
     = Ok c.
Proof.
  intros Hbefore.
  assert (Hlook : (list_to_map (before ++ (field_name, c) :: after)
                     : gmap string json) !! field_name = Some c).
  { induction before as [| [k v] before IH]; simpl.
    - apply lookup_insert_eq.
    - apply Forall_cons_1 in Hbefore as [Hk Hbefore]. simpl in Hk.
      rewrite lookup_insert_ne by exact Hk. apply IH, Hbefore. }
  split.
  - rewrite table_get_value, Hlook. reflexivity.
  - rewrite table_get_string_value, Hlook. reflexivity.
Qed.

Lemma first_column_with_the_name_wins_witness :
  get_value (JList [JStr "NAME"; JStr "B01003_001E"; JStr "B01003_001E"])
            (JList [JStr "ZCTA5 90210"; JStr "20000"; JStr "7"]) "B01003_001E"
  = Ok 20000.
Proof.
  destruct (first_column_with_the_name_wins
              [("NAME", JStr "ZCTA5 90210")] [("B01003_001E", JStr "7")]
              "B01003_001E" (JStr "20000")) as [H _].
  - repeat constructor. discriminate.
  - exact H.
Defined.

(** ** The order of the columns *)

Lemma mapM_ext {A B : Type} (f g : A -> result B) (l : list A) :
  (forall x, f x = g x) -> mapM f l = mapM g l.
Proof.
  intros H. induction l as [| x xs IH]; simpl; [reflexivity |].
  rewrite H, IH. reflexivity.
Qed.

(** [extract] depends on the two rows through the two helpers only. *)
Lemma extract_ext (data data' h v h' v' : json) (zip_code : string) :
  py_getitem data 0 = Ok h -> py_getitem data 1 = Ok v ->
  py_getitem data' 0 = Ok h' -> py_getitem data' 1 = Ok v' ->
  (forall f, get_value h v f = get_value h' v' f) ->
  (forall f, get_string_value h v f = get_string_value h' v' f) ->
  extract data zip_code = extract data' zip_code.
Proof.
  intros H0 H1 H0' H1' Hgv Hgs. unfold extract.
  rewrite H0, H1, H0', H1'. cbn [bind].
  rewrite (mapM_ext _ _ age_65_keys Hgv).
  rewrite !Hgv, !Hgs. reflexivity.
Qed.

(** X7. The extractor does not depend on the order of the columns: for a
    table whose header names are pairwise distinct, permuting the columns
    (header and data cell together) leaves the result unchanged. *)
Theorem column_order_is_irrelevant
    (cells cells' : list (string * json)) (zip_code : string) :
  NoDup (map fst cells) ->
  Permutation cells cells' ->
  fetch_census_demographics (Payload (table cells)) zip_code
  = fetch_census_demographics (Payload (table cells')) zip_code.
Proof.
  intros Hnodup Hperm.
  assert (Hmap : (list_to_map cells : gmap string json) = list_to_map cells')
    by (apply list_to_map_proper; assumption).
  unfold fetch_census_demographics, fetch_try, table. cbn [receive bind].
  rewrite !too_short_long. cbn [bind].
  erewrite (extract_ext _ (JList [JList (map (fun c => JStr (fst c)) cells');
                                  JList (map snd cells')]));
    [reflexivity | reflexivity | reflexivity | reflexivity | reflexivity | |].
  - intros f. rewrite !table_get_value, Hmap. reflexivity.
  - intros f. rewrite !table_get_string_value, Hmap. reflexivity.
Qed.

Lemma column_order_is_irrelevant_witness :
  fetch_census_demographics
    (Payload (table [ ("B01003_001E", JStr "20000"); ("NAME", JStr "ZCTA5 90210");
                      ("B09001_001E", JStr "3000") ])) "90210"
  = fetch_census_demographics
      (Payload (table [ ("NAME", JStr "ZCTA5 90210"); ("B09001_001E", JStr "3000");
                        ("B01003_001E", JStr "20000") ])) "90210".
Proof.
  apply column_order_is_irrelevant.
  - apply (bool_decide_unpack _). vm_compute. exact I.
  - apply perm_trans with
      [ ("NAME", JStr "ZCTA5 90210"); ("B01003_001E", JStr "20000");
        ("B09001_001E", JStr "3000") ].
    + apply perm_swap.
    + apply perm_skip, perm_swap.
Defined.

(** ** Decimal strings *)

Lemma digits_value_of_uint_acc (d : Decimal.uint) (acc : positive) :
  digits_value (Z.pos acc) true
               (list_ascii_of_string (NilEmpty.string_of_uint d))
  = Some (Z.pos (Pos.of_uint_acc d acc)).
Proof.
  revert acc. induction d as [| d IH | d IH | d IH | d IH | d IH | d IH
                              | d IH | d IH | d IH | d IH]; intros acc;
    [reflexivity | ..];
    cbn [NilEmpty.string_of_uint list_ascii_of_string digits_value
         Pos.of_uint_acc];
    (match goal with
     | |- context [is_digit ?c] =>
         change (is_digit c) with true; cbv iota
     end);
    rewrite <- IH; f_equal; vm_compute digit_value; lia.
Qed.

Lemma digits_value_of_uint (d : Decimal.uint) :
  digits_value 0 true (list_ascii_of_string (NilEmpty.string_of_uint d))
  = Some (Z.of_N (Pos.of_uint d)).
Proof.
  induction d as [| d IH | d _ | d _ | d _ | d _ | d _ | d _ | d _ | d _ | d _];
    [reflexivity | exact IH | ..];
    cbn [NilEmpty.string_of_uint list_ascii_of_string digits_value Pos.of_uint
         Z.of_N];
    (match goal with
     | |- context [is_digit ?c] =>
         change (is_digit c) with true; cbv iota
     end);
    rewrite <- digits_value_of_uint_acc; reflexivity.
Qed.

Lemma drop_spaces_none (l : list ascii) :
  Forall (fun c => is_space c = false) l -> drop_spaces l = l.
Proof. intros [| c r Hc _]; simpl; [reflexivity | rewrite Hc; reflexivity]. Qed.

Lemma strip_none (l : list ascii) :
  Forall (fun c => is_space c = false) l -> strip l = l.
Proof.
  intros H. unfold strip. rewrite (drop_spaces_none l H).
  rewrite drop_spaces_none by (apply Forall_rev, H). apply rev_involutive.
Qed.

Lemma uint_digits (d : Decimal.uint) :
  Forall (fun c => is_digit c = true)
         (list_ascii_of_string (NilEmpty.string_of_uint d)).
Proof. induction d; simpl; constructor; auto. Qed.

Lemma digit_not_space (c : ascii) : is_digit c = true -> is_space c = false.
Proof.
  unfold is_digit, is_space. intros H.
  apply andb_true_iff in H as [H1 H2].
  apply Z.leb_le in H1. apply Z.leb_le in H2.
  repeat (apply orb_false_iff; split);
    [apply andb_false_iff; right; apply Z.leb_gt; lia
    | apply Z.eqb_neq; lia ..].
Qed.

Lemma digit_not_sign (c : ascii) :
  is_digit c = true -> (code c =? 45) = false /\ (code c =? 43) = false.
Proof.
  unfold is_digit. intros H. apply andb_true_iff in H as [H1 H2].
  apply Z.leb_le in H1. split; apply Z.eqb_neq; lia.
Qed.

(** [int(str(z))] is [z]. *)
Lemma int_of_string_str (z : Z) : int_of_string (py_str (ZipInt z)) = Some z.
Proof.
  unfold py_str, int_of_string.
  destruct z as [| p | p]; [reflexivity | |].
  - cbn [Z.to_int NilZero.string_of_int NilZero.string_of_uint].
    pose proof (DecimalPos.Unsigned.to_uint_nonnil p) as Hnil.
    pose proof (DecimalPos.Unsigned.of_to p) as Hof.
    pose proof (uint_digits (Pos.to_uint p)) as Hdig.
    pose proof (digits_value_of_uint (Pos.to_uint p)) as Hval.
    destruct (Pos.to_uint p) as [| d | d | d | d | d | d | d | d | d | d]
      eqn:Hd; [congruence | ..];
      (rewrite strip_none
         by (eapply Forall_impl; [exact Hdig | apply digit_not_space]));
      rewrite Hof in Hval; exact Hval.
  - cbn [Z.to_int NilZero.string_of_int NilZero.string_of_uint].
    pose proof (DecimalPos.Unsigned.to_uint_nonnil p) as Hnil.
    pose proof (DecimalPos.Unsigned.of_to p) as Hof.
    pose proof (uint_digits (Pos.to_uint p)) as Hdig.
    pose proof (digits_value_of_uint (Pos.to_uint p)) as Hval.
    assert (Hspace : Forall (fun c => is_space c = false)
                       ("-"%char :: list_ascii_of_string
                                      (NilEmpty.string_of_uint (Pos.to_uint p)))).
    { constructor; [reflexivity |].
      eapply Forall_impl; [exact Hdig | apply digit_not_space]. }
    destruct (Pos.to_uint p) as [| d | d | d | d | d | d | d | d | d | d]
      eqn:Hd; [congruence | ..];
      cbn [list_ascii_of_string NilZero.string_of_uint];
      rewrite (strip_none _ Hspace);
      rewrite Hof in Hval;
      (match type of Hval with
       | digits_value 0 true ?L = _ =>
           transitivity (option_map Z.opp (digits_value 0 true L));
           [reflexivity | rewrite Hval; reflexivity]
       end).
Qed.

(** X8. A cell that holds the decimal string of an integer, as [str]
    prints it, is read back by [get_value] as that integer.  (The bound is
    the interpreter's default limit of 4300 digits, which the model leaves
    out.) *)
Theorem get_value_reads_decimal_exactly
    (headers values : json) (field_name : string) (i : nat) (z : Z) :
  Z.abs z < 10 ^ 4300 ->
  py_index headers field_name = Ok i ->
  py_getitem values i = Ok (JStr (py_str (ZipInt z))) ->
  get_value headers values field_name = Ok z.
Proof.
  intros _ Hi Hv. unfold get_value. rewrite Hi. cbn [bind]. rewrite Hv.
  cbn [bind py_int]. rewrite int_of_string_str. reflexivity.
Qed.

Lemma get_value_reads_decimal_exactly_witness :
  get_value (JList [JStr "B19013_001E"]) (JList [JStr "-666666666"])
            "B19013_001E" = Ok (-666666666).
Proof.
  apply (get_value_reads_decimal_exactly _ _ _ 0%nat (-666666666)).
  - vm_compute. reflexivity.
  - reflexivity.
  - reflexivity.
Defined.

(** ** Requests that reach the generative calls *)







(** ** Status 500 and the collection *)

Lemma get_gemini_profile_result (gemini : prompt -> model_outcome)
    (data : demographics) :
  match profile_prompt data with
  | Ok _ => exists profile, get_gemini_profile gemini data = Ok profile
  | Raise e => get_gemini_profile gemini data = Raise e
  end.
Proof.
  unfold get_gemini_profile. destruct (profile_prompt data) as [p | e];
    cbn [bind]; [| reflexivity].
  destruct (model_reply (gemini p)); eauto.
Qed.

(** What a request that missed the cache and extracted a record is
    answered with. *)
Lemma handle_after_extraction
    (db : option zip_cache) (v : zip_field) (w : world) (data : demographics) :
  cache_get db (py_str v) w = Ok None ->
  fetch_census_demographics (census w) (py_str v) = Some data ->
  match profile_prompt data with
  | Ok _ =>
      exists final_result,
        handle_find_twin db (Post (BodyZip v)) w
        = ({| status := 200; content := ResultBody final_result |},
           cache_set db (py_str v) final_result w)
        /\ r_demographics final_result = data
  | Raise _ =>
      handle_find_twin db (Post (BodyZip v)) w
      = ({| status := 500;
            content := ErrorBody "An internal server error occurred." |}, db)
  end.
Proof.
  intros Hmiss Hdata. unfold handle_find_twin, handle_try.
  rewrite Hmiss. cbn [bind]. rewrite Hdata.
  pose proof (get_gemini_profile_result (gemini_profile w) data) as Hprofile.
  destruct (profile_prompt data) as [p | e] eqn:Hp.
  - destruct Hprofile as [profile ->]. cbn [bind].
    destruct (profile_prompt_then_doppelganger_prompt data p Hp) as [q Hq].
    destruct (find_doppelgangers_returns (gemini_doppelgangers w) data q Hq)
      as [dg ->].
    cbn [bind]. eexists. split; reflexivity.
  - rewrite Hprofile. reflexivity.
Qed.



(** X11. The endpoint never creates a collection, never removes or
    replaces a document, and writes at most one document per request: the
    collection after a request is the one before it, or the one before it
    with the entry of a 200 response added under the requested ZIP code,
    which had no document. *)
Theorem collection_only_grows_by_the_requested_key
    (db : option zip_cache) (req : request) (w : world) :
  (db = None -> snd (handle_find_twin db req w) = None)
  /\ (forall store : zip_cache,
        db = Some store ->
        snd (handle_find_twin db req w) = Some store
        \/ exists v final_result,
             req = Post (BodyZip v)
             /\ store !! py_str v = None
             /\ fst (handle_find_twin db req w)
                = {| status := 200; content := ResultBody final_result |}
             /\ snd (handle_find_twin db req w)
                = Some (<[py_str v := final_result]> store))
  /\ (forall (store store' : zip_cache) (k : string) (doc : cache_entry),
        db = Some store ->
        snd (handle_find_twin db req w) = Some store' ->
        store !! k = Some doc -> store' !! k = Some doc).
Proof.
  assert (Hcases : snd (handle_find_twin db req w) = db
                   \/ exists v final_result store,
                        req = Post (BodyZip v) /\ db = Some store
                        /\ store !! py_str v = None
                        /\ fst (handle_find_twin db req w)
                           = {| status := 200; content := ResultBody final_result |}
                        /\ snd (handle_find_twin db req w)
                           = Some (<[py_str v := final_result]> store)).
  { destruct req as [| [| | | v]]; try (left; reflexivity).
    destruct (cache_get db (py_str v) w) as [[doc |] | e] eqn:Hget.
    - left. unfold handle_find_twin, handle_try. rewrite Hget. reflexivity.
    - destruct (fetch_census_demographics (census w) (py_str v))
        as [data |] eqn:Hdata.
      + pose proof (handle_after_extraction db v w data Hget Hdata) as Hres.
        destruct (profile_prompt data) as [p | e];
          [| left; rewrite Hres; reflexivity].
        destruct Hres as (final_result & Hres & _). rewrite Hres.
        unfold cache_get in Hget. unfold cache_set. cbn [fst snd].
        destruct db as [store |]; [| left; reflexivity].
        destruct (cache_get_raises w); [discriminate |].
        injection Hget as Hnone.
        destruct (cache_set_raises w); [left; reflexivity |].
        right. exists v, final_result, store. auto.
      + left. unfold handle_find_twin, handle_try. rewrite Hget. cbn [bind].
        rewrite Hdata. reflexivity.
    - left. unfold handle_find_twin, handle_try. rewrite Hget. reflexivity. }
  split; [| split].
  - intros ->. destruct Hcases as [H | (v & f & store & _ & H & _)];
      [exact H | discriminate].
  - intros store ->.
    destruct Hcases as [H | (v & f & store' & Hreq & Hdb & Hnone & Hfst & Hsnd)];
      [left; exact H |].
    injection Hdb as <-. right. exists v, f. auto.
  - intros store store' k doc -> Hafter Hdoc.
    destruct Hcases as [H | (v & f & st & Hreq & Hdb & Hnone & Hfst & Hsnd)].
    + rewrite H in Hafter. injection Hafter as <-. exact Hdoc.
    + injection Hdb as <-. rewrite Hsnd in Hafter. injection Hafter as <-.
      rewrite lookup_insert_ne; [exact Hdoc |]. intros <-. congruence.
Qed.

Lemma collection_only_grows_by_the_requested_key_witness :
  snd (handle_find_twin (Some {[ "10583" := beverly_hills_entry ]})
         (find_twin "90210") all_well)
  = Some (<[ "90210" := beverly_hills_entry ]>
            {[ "10583" := beverly_hills_entry ]}).
Proof.
  destruct (collection_only_grows_by_the_requested_key
              (Some {[ "10583" := beverly_hills_entry ]})
              (find_twin "90210") all_well) as (_ & H & _).
  destruct (H _ eq_refl) as [Hsame | (v & f & Hreq & _ & Hfst & Hsnd)].
  - vm_compute in Hsame. discriminate.
  - injection Hreq as <-. rewrite Hsnd. do 2 f_equal.
    apply (f_equal content) in Hfst. vm_compute in Hfst.
    injection Hfst as <-. reflexivity.
Defined.

(** X12. An entry that was cached with the error object of a failed
    profile call is served again on the next request for the ZIP code: the
    hosted model is not asked again, whatever it would answer then. *)
Theorem degraded_entry_is_served_again
    (store : zip_cache) (v : zip_field) (w1 w2 : world)
    (data : demographics) (p : prompt) (e : exn) :
  cache_get_raises w1 = false ->
  cache_set_raises w1 = false ->
  cache_get_raises w2 = false ->
  store !! py_str v = None ->
  fetch_census_demographics (census w1) (py_str v) = Some data ->
  profile_prompt data = Ok p ->
  model_reply (gemini_profile w1 p) = Raise e ->
  exists final_result,
    fst (handle_find_twin
           (snd (handle_find_twin (Some store) (Post (BodyZip v)) w1))
           (Post (BodyZip v)) w2)
    = {| status := 200; content := ResultBody final_result |}
    /\ r_demographics final_result = data
    /\ r_profile final_result
       = JDict [("error", JStr "Failed to generate Gemini profile.")].
Proof.
  intros Hget1 Hset1 Hget2 Hnone Hdata Hp He.
  destruct (profile_prompt_then_doppelganger_prompt data p Hp) as [q Hq].
  destruct (find_doppelgangers_returns (gemini_doppelgangers w1) data q Hq)
    as [dg Hdg].
  assert (Hfirst : snd (handle_find_twin (Some store) (Post (BodyZip v)) w1)
                   = Some (<[py_str v :=
                               {| r_demographics := data;
                                  r_profile := error_object "Failed to generate Gemini profile.";
                                  r_doppelgangers := dg |}]> store)).
  { unfold handle_find_twin, handle_try, cache_get, cache_set.
    rewrite Hget1, Hset1. cbn [bind]. rewrite Hnone, Hdata.
    unfold get_gemini_profile. rewrite Hp. cbn [bind]. rewrite He. cbn [bind].
    rewrite Hdg. reflexivity. }
  rewrite Hfirst.
  rewrite (cache_hit _ v w2 _ Hget2 (lookup_insert_eq _ _ _)).
  eexists. split; [reflexivity |]. split; reflexivity.
Qed.

Lemma degraded_entry_is_served_again_witness :
  exists final_result,
    fst (handle_find_twin
           (snd (handle_find_twin (Some ∅) (find_twin "90210") profile_call_fails))
           (find_twin "90210") all_well)
    = {| status := 200; content := ResultBody final_result |}
    /\ r_profile final_result
       = JDict [("error", JStr "Failed to generate Gemini profile.")].
Proof.
  destruct (profile_prompt beverly_hills_record) as [p | e] eqn:Hp;
    [| vm_compute in Hp; discriminate].
  destruct (degraded_entry_is_served_again ∅ (ZipStr "90210")
              profile_call_fails all_well beverly_hills_record p OtherException)
    as (final_result & H & _ & Hprofile);
    [reflexivity | reflexivity | reflexivity | reflexivity
    | vm_compute; reflexivity | exact Hp | reflexivity |].
  exists final_result. split; assumption.
Defined.

(** ** Thousands separators *)

Example format_number_text_docstring :
  format_number_text 1234567 = "1,234,567"
  /\ format_number_text 0 = "0" /\ format_number_text 999 = "999"
  /\ format_number_text 1000 = "1,000" /\ format_number_text (-20575) = "-20,575".
Proof. vm_compute. repeat split. Qed.

Lemma commas_rev_short (l : list ascii) :
  (List.length l <= 3)%nat -> commas_rev l = l.
Proof.
  destruct l as [| a [| b [| c [| d r]]]]; simpl; intros H;
    try reflexivity. lia.
Qed.

Lemma commas_rev_long (a b c d : ascii) (r : list ascii) :
  commas_rev (a :: b :: c :: d :: r)
  = a :: b :: c :: ","%char :: commas_rev (d :: r).
Proof. reflexivity. Qed.

(** Induction in steps of three digits. *)
Lemma three_digit_induction (P : list ascii -> Prop) :
  (forall l, (List.length l <= 3)%nat -> P l) ->
  (forall a b c d r, P (d :: r) -> P (a :: b :: c :: d :: r)) ->
  forall l, P l.
Proof.
  intros Hshort Hlong l.
  assert (H : forall n l, (List.length l <= n)%nat -> P l).
  { clear l. induction n as [| n IH]; intros l Hl.
    - apply Hshort. lia.
    - destruct l as [| a [| b [| c [| d r]]]];
        try (apply Hshort; simpl; lia).
      apply Hlong, IH. simpl in Hl |- *. lia. }
  apply (H (List.length l)). lia.
Qed.

Lemma commas_rev_filter (l : list ascii) :
  Forall (fun c => is_comma c = false) l ->
  List.filter (fun c => negb (is_comma c)) (commas_rev l) = l.
Proof.
  induction l as [l Hl | a b c d r IH] using three_digit_induction.
  - intros H. rewrite commas_rev_short by exact Hl. clear Hl.
    induction H as [| x xs Hx _ IH]; simpl; [reflexivity |].
    rewrite Hx. simpl. f_equal. exact IH.
  - intros H. rewrite commas_rev_long.
    apply Forall_cons_1 in H as [Ha H].
    apply Forall_cons_1 in H as [Hb H].
    apply Forall_cons_1 in H as [Hc H].
    change (a :: b :: c :: ","%char :: commas_rev (d :: r))
      with (([a; b; c; ","%char] ++ commas_rev (d :: r))%list).
    rewrite List.filter_app, IH by exact H.
    cbn [List.filter]. rewrite Ha, Hb, Hc. reflexivity.
Qed.

Lemma commas_rev_positions (l : list ascii) :
  Forall (fun c => is_comma c = false) l ->
  forall (i : nat) (x : ascii),
    commas_rev l !! i = Some x -> (is_comma x = true <-> (i mod 4 = 3)%nat).
Proof.
  induction l as [l Hl | a b c d r IH] using three_digit_induction.
  - intros H i x Hx. rewrite commas_rev_short in Hx by exact Hl.
    assert (Hi : (i < 3)%nat).
    { apply lookup_lt_Some in Hx. lia. }
    rewrite Forall_lookup in H. rewrite (H i x Hx).
    rewrite Nat.mod_small by lia. split; [discriminate | lia].
  - intros H i x Hx. rewrite commas_rev_long in Hx.
    apply Forall_cons_1 in H as [Ha H].
    apply Forall_cons_1 in H as [Hb H].
    apply Forall_cons_1 in H as [Hc H].
    destruct i as [| [| [| [| i]]]]; simpl in Hx.
    + injection Hx as <-. rewrite Ha. split; [discriminate |].
      intros E. discriminate E.
    + injection Hx as <-. rewrite Hb. split; [discriminate |].
      intros E. discriminate E.
    + injection Hx as <-. rewrite Hc. split; [discriminate |].
      intros E. discriminate E.
    + injection Hx as <-. split; reflexivity.
    + rewrite (IH H i x Hx).
      replace (S (S (S (S i)))) with (i + 1 * 4)%nat by lia.
      rewrite Nat.Div0.mod_add. reflexivity.
Qed.

Lemma commas_rev_last (l : list ascii) :
  Forall (fun c => is_comma c = false) l ->
  Forall (fun c => is_comma c = false) (drop (List.length (commas_rev l) - 1)
                                             (commas_rev l)).
Proof.
  induction l as [l Hl | a b c d r IH] using three_digit_induction.
  - intros H. rewrite commas_rev_short by exact Hl. apply Forall_drop, H.
  - intros H. rewrite commas_rev_long.
    apply Forall_cons_1 in H as [_ H].
    apply Forall_cons_1 in H as [_ H].
    apply Forall_cons_1 in H as [_ H].
    specialize (IH H).
    assert (Hlen : (0 < List.length (commas_rev (d :: r)))%nat).
    { destruct r as [| e [| f [| g r]]]; simpl; lia. }
    remember (commas_rev (d :: r)) as t eqn:Ht. clear Ht.
    replace (List.length (a :: b :: c :: ","%char :: t) - 1)%nat
      with (4 + (List.length t - 1))%nat
      by (cbn [List.length]; lia).
    exact IH.
Qed.

Lemma digit_not_comma (c : ascii) : is_digit c = true -> is_comma c = false.
Proof.
  intros H. unfold is_comma. destruct (Ascii.eqb c ",") eqn:E; [| reflexivity].
  apply Ascii.eqb_eq in E. subst c. discriminate H.
Qed.

Lemma nonnegative_digits (value : Z) :
  0 <= value ->
  Forall (fun c => is_comma c = false)
         (list_ascii_of_string (py_str (ZipInt value))).
Proof.
  intros H. destruct value as [| p | p]; [repeat constructor | | lia].
  cbn [py_str Z.to_int NilZero.string_of_int NilZero.string_of_uint].
  pose proof (DecimalPos.Unsigned.to_uint_nonnil p) as Hnil.
  pose proof (uint_digits (Pos.to_uint p)) as Hdig.
  destruct (Pos.to_uint p); [congruence | ..];
    (eapply Forall_impl; [exact Hdig | apply digit_not_comma]).
Qed.

Lemma format_number_text_nonnegative (value : Z) :
  0 <= value ->
  list_ascii_of_string (format_number_text value)
  = rev (commas_rev (rev (list_ascii_of_string (py_str (ZipInt value))))).
Proof.
  intros H. unfold format_number_text.
  rewrite (proj2 (Z.ltb_ge value 0) H), Z.abs_eq by exact H.
  apply list_ascii_of_string_of_list_ascii.
Qed.

Lemma format_number_text_negative (p : positive) :
  format_number_text (Z.neg p)
  = String "-" (format_number_text (Z.pos p)).
Proof. reflexivity. Qed.

(** X13. The text of [format_number] is the decimal string of the int with
    commas added: removing the commas gives back [str(value)]; a negative
    value is the minus sign followed by the text of its absolute value;
    and for a value that is not negative, counting from the right, the
    commas stand at every fourth place and nowhere else, and the text
    does not begin with a comma. *)
Theorem format_number_text_groups_by_three (value : Z) :
  List.filter (fun c => negb (is_comma c))
              (list_ascii_of_string (format_number_text value))
  = list_ascii_of_string (py_str (ZipInt value))
  /\ (value < 0 ->
      format_number_text value = String "-" (format_number_text (- value)))
  /\ (0 <= value ->
      (forall (i : nat) (x : ascii),
          rev (list_ascii_of_string (format_number_text value)) !! i = Some x ->
          (x = ","%char <-> (i mod 4 = 3)%nat))
      /\ (forall x, head (list_ascii_of_string (format_number_text value)) = Some x ->
                    x <> ","%char)).
Proof.
  assert (Hfilter : forall v, 0 <= v ->
             List.filter (fun c => negb (is_comma c))
                         (list_ascii_of_string (format_number_text v))
             = list_ascii_of_string (py_str (ZipInt v))).
  { intros v Hv. rewrite format_number_text_nonnegative by exact Hv.
    rewrite List.filter_rev, commas_rev_filter.
    - apply rev_involutive.
    - apply Forall_rev, nonnegative_digits, Hv. }
  split; [| split].
  - destruct value as [| p | p]; [apply Hfilter; lia | apply Hfilter; lia |].
    rewrite format_number_text_negative.
    cbn [list_ascii_of_string List.filter].
    change (negb (is_comma "-")) with true. cbv iota.
    rewrite Hfilter by lia. reflexivity.
  - intros H. destruct value as [| p | p]; try lia.
    apply format_number_text_negative.
  - intros H. rewrite format_number_text_nonnegative by exact H.
    pose proof (nonnegative_digits value H) as Hdig.
    apply Forall_rev in Hdig.
    set (l := rev (list_ascii_of_string (py_str (ZipInt value)))) in *.
    split.
    + intros i x Hx. rewrite rev_involutive in Hx.
      rewrite <- (commas_rev_positions l Hdig i x Hx).
      unfold is_comma. split; [intros ->; reflexivity | apply Ascii.eqb_eq].
    + intros x Hx Hcomma. subst x.
      pose proof (commas_rev_last l Hdig) as Hlast.
      destruct (rev (commas_rev l)) as [| y t] eqn:E; [discriminate |].
      simpl in Hx. injection Hx as ->.
      assert (Hl : commas_rev l = (rev t ++ [","%char])%list).
      { rewrite <- (rev_involutive (commas_rev l)), E. reflexivity. }
      rewrite Hl in Hlast. rewrite length_app in Hlast.
      replace (List.length (rev t) + List.length [","%char] - 1)%nat
        with (List.length (rev t)) in Hlast by (simpl; lia).
      rewrite drop_app_length in Hlast.
      apply Forall_cons_1 in Hlast as [Hc _]. discriminate Hc.
Qed.

Lemma format_number_text_groups_by_three_witness :
  rev (list_ascii_of_string (format_number_text 1234567)) !! 3%nat
  = Some ","%char.
Proof.
  destruct (format_number_text_groups_by_three 1234567) as (_ & _ & H).
  destruct (H ltac:(lia)) as [Hpos _].
  destruct (rev (list_ascii_of_string (format_number_text 1234567)) !! 3%nat)
    as [x |] eqn:Hx; [| vm_compute in Hx; discriminate].
  f_equal. apply (Hpos 3%nat x Hx). reflexivity.
Defined.

(** ** The median age, the name and the ZIP code of the record *)

(** X14. On list rows with cells that are strings or null, a median-age
    column that is absent, or whose cell is null or the empty string, gives
    a record with median age float(0); a cell that is a non-empty float
    literal gives a record whose median age is the float of that text. *)
Theorem median_age_of_the_record
    (hs vs rest : list json) (zip_code : string) (raw : json) :
  Forall (fun c => is_text_or_null c = true) vs ->
  get_string_value (JList hs) (JList vs) "B01002_001E" = Ok raw ->
  (py_truthy raw = false ->
   exists d,
     fetch_census_demographics (Payload (JList (JList hs :: JList vs :: rest)))
                               zip_code = Some d
     /\ medianAge d = FOfInt 0)
  /\ (forall s,
        raw = JStr s -> s <> EmptyString -> is_float_literal s = true ->
        exists d,
          fetch_census_demographics
            (Payload (JList (JList hs :: JList vs :: rest))) zip_code = Some d
          /\ medianAge d = FOfStr s).
Proof.
  intros Hcells Hraw.
  pose proof (extract_with_total_helpers
                (JList (JList hs :: JList vs :: rest)) (JList hs) (JList vs)
                zip_code raw eq_refl eq_refl
                (fun f => proj2 (proj2 (helpers_on_list_rows_aux hs vs f)) Hcells)
                (fun f => proj1 (helpers_on_list_rows_aux hs vs f)) Hraw) as Hex.
  assert (Hfetch : forall d,
             extract (JList (JList hs :: JList vs :: rest)) zip_code = Ok d ->
             fetch_census_demographics
               (Payload (JList (JList hs :: JList vs :: rest))) zip_code = Some d).
  { intros d Hd. unfold fetch_census_demographics, fetch_try.
    cbn [receive bind]. rewrite too_short_long. cbn [bind]. rewrite Hd.
    reflexivity. }
  split.
  - intros Hfalsy.
    assert (E : py_float (py_or raw (JInt 0)) = Ok (FOfInt 0)).
    { unfold py_or. rewrite Hfalsy. vm_compute. reflexivity. }
    rewrite E in Hex. destruct Hex as (d & Hd & Hage). eauto.
  - intros s -> Hne Hlit.
    assert (E : py_float (py_or (JStr s) (JInt 0)) = Ok (FOfStr s)).
    { unfold py_or, py_truthy.
      rewrite (proj2 (String.eqb_neq s EmptyString) Hne). simpl.
      rewrite Hlit. reflexivity. }
    rewrite E in Hex. destruct Hex as (d & Hd & Hage). eauto.
Qed.

Lemma median_age_of_the_record_witness :
  (exists d,
      fetch_census_demographics
        (Payload (JList [JList [JStr "B01002_001E"]; JList [JNull]])) "90210"
      = Some d /\ medianAge d = FOfInt 0)
  /\ (exists d,
        fetch_census_demographics
          (Payload (JList [JList [JStr "B01002_001E"]; JList [JStr "38.5"]]))
          "90210"
        = Some d /\ medianAge d = FOfStr "38.5").
Proof.
  split.
  - destruct (median_age_of_the_record [JStr "B01002_001E"] [JNull] []
                "90210" JNull) as [H _];
      [repeat constructor | reflexivity |].
    apply H. reflexivity.
  - destruct (median_age_of_the_record [JStr "B01002_001E"] [JStr "38.5"] []
                "90210" (JStr "38.5")) as [_ H];
      [repeat constructor | reflexivity |].
    apply (H "38.5"); [reflexivity | discriminate | reflexivity].
Defined.



